(** * Entity / aspect extraction and evaluation pipeline

    A shallow embedding of the Python sources

      - [helper_funcs.py]                    (completion client),
      - [input_data.py]                      (CSV loader),
      - [model_entity_aspect_generation.py]  (extraction stage),
      - [model_evaluation.py]                (evaluation stage),
      - [main.py]                            (orchestrator),

    followed by the properties of the pipeline.

    Python objects live in a store indexed by locations, so that the
    references an object keeps to another one ([self.df],
    [self.model_gen_object]) are modelled as such.  Methods are computations
    in a state-and-exception monad over that store.  The services the
    repository calls but does not implement (the chat-completion endpoint,
    [ast.literal_eval], the sentence-embedding model, [util.cos_sim] and
    [pandas.read_csv]) are parameters of the development.

    Conventions of the model:
      - a Python [float] is a primitive binary64 float; the numeric defaults
        the source writes [0] for parameters annotated [float] are [0.0];
      - a cell of the data frame is a text (the three columns hold texts);
      - an argument left to its default is [None], and takes the default of
        the signature inside the function;
      - a Python tuple stored in an attribute is the list of its
        components. *)

From Stdlib Require Import ZArith Floats.
From stdpp Require Import gmap strings list fin_maps.

(* ===================================================================== *)
(** * Python floats

    A Python [float] is an IEEE 754 binary64 number: the kernel's primitive
    floats.  [x >= y] on floats is [y <=? x]; it is [False] as soon as one
    side is a NaN. *)
(* ===================================================================== *)

Module PyFloat.

Definition ge (x y : float) : bool := (y <=? x)%float.
Definition gt (x y : float) : bool := (y <? x)%float.
Definition le (x y : float) : bool := (x <=? y)%float.
Definition lt (x y : float) : bool := (x <? y)%float.

(** The comparison of the specification floats compares signs, then
    exponents, then mantissas: it is the lexicographic order of the
    following keys ([None] for a NaN, which compares with nothing). *)

Definition key (f : spec_float) : option (Z * Z * Z) :=
  match f with
  | S754_nan => None
  | S754_infinity true => Some (-2, 0, 0)%Z
  | S754_finite true m e => Some (-1, - e, - Z.pos m)%Z
  | S754_zero _ => Some (0, 0, 0)%Z
  | S754_finite false m e => Some (1, e, Z.pos m)%Z
  | S754_infinity false => Some (2, 0, 0)%Z
  end.

Definition lex_lt (x y : Z * Z * Z) : Prop :=
  let '(a, b, c) := x in
  let '(a', b', c') := y in
  (a < a' ∨ (a = a' ∧ (b < b' ∨ (b = b' ∧ c < c'))))%Z.

Definition key_lt (x y : option (Z * Z * Z)) : Prop :=
  match x, y with
  | Some kx, Some ky => lex_lt kx ky
  | _, _ => False
  end.

Definition key_le (x y : option (Z * Z * Z)) : Prop :=
  match x, y with
  | Some kx, Some ky => lex_lt kx ky ∨ kx = ky
  | _, _ => False
  end.

End PyFloat.

(* ===================================================================== *)
(** * Python values, exceptions and the store *)
(* ===================================================================== *)

(** The values [ast.literal_eval] can return, as far as the pipeline looks
    into them.  A dictionary is keyed by strings: the completion is
    requested as a JSON object, whose keys are strings at every level.
    (Bytes, sets and complex numbers are left out; like [PInt] they support
    none of the subscripts used here.) *)
#[warnings="-register-all"]
Inductive pyval : Type :=
| PNone
| PBool (b : bool)
| PInt (z : Z)
| PFloat (f : float)
| PStr (s : string)
| PList (l : list pyval)
| PTuple (l : list pyval)
| PDict (d : gmap string pyval).

(** The exceptions that occur.  [ApiError] stands for whatever the
    completion endpoint, the CSV reader or the embedding model raise;
    [ParseError] for the [ValueError] / [SyntaxError] family of
    [ast.literal_eval]. *)
Inductive exn : Type :=
| KeyError
| IndexError
| TypeError
| AttributeError
| ParseError (msg : string)
| ApiError (msg : string).

Inductive result (A : Type) : Type :=
| Ok (a : A)
| Raise (e : exn).
Arguments Ok {A} a.
Arguments Raise {A} e.

(** ** Subscripts

    [obj[key]] for the two kinds of key the code uses: a string and the
    integer [0]. *)

(** [obj["k"]]: only a dictionary can be indexed by a string. *)
Definition getitem_str (obj : pyval) (k : string) : result pyval :=
  match obj with
  | PDict d =>
      match d !! k with
      | Some v => Ok v
      | None => Raise KeyError
      end
  | _ => Raise TypeError
  end.

(** A text is the UTF-8 encoding of a Python [str], whose elements are
    code points.  [utf8_width a] is the number of bytes of the character
    that starts with the byte [a]: one for an ASCII character ([0xxxxxxx]),
    two, three or four for the leading bytes [110xxxxx], [1110xxxx] and
    [11110xxx].  [first_char s] is [s[0]], the first character of a
    non-empty text, with all its bytes. *)
Definition utf8_width (a : Ascii.ascii) : nat :=
  let n := Ascii.N_of_ascii a in
  if (n <? 192)%N then 1
  else if (n <? 224)%N then 2
  else if (n <? 240)%N then 3
  else 4.

Definition first_char (s : string) : string :=
  match s with
  | String a _ => String.substring 0 (utf8_width a) s
  | EmptyString => EmptyString
  end.

(** [obj[0]]: the first element of a sequence, the first character of a
    text; a dictionary has no integer key; the scalars are not
    subscriptable. *)
Definition getitem_0 (obj : pyval) : result pyval :=
  match obj with
  | PList l | PTuple l =>
      match l with
      | x :: _ => Ok x
      | [] => Raise IndexError
      end
  | PStr s =>
      match s with
      | String _ _ => Ok (PStr (first_char s))
      | EmptyString => Raise IndexError
      end
  | PDict _ => Raise KeyError
  | _ => Raise TypeError
  end.

(* ===================================================================== *)
(** * Strings of the prompt *)
(* ===================================================================== *)

(** The newline and the double quote, and the text made of given lines. *)
Definition nl : string := String (Ascii.ascii_of_nat 10) EmptyString.
Definition dq : string := String (Ascii.ascii_of_nat 34) EmptyString.
Definition q (s : string) : string := dq +:+ s +:+ dq.
Definition unlines (ls : list string) : string := String.concat nl ls.

(** The five fixed texts of [order_chat_messages].  In the source a
    backslash at the end of a line joins it with the next one. *)

(** The persona of the extractor (the system message). *)
Definition system_prompt : string :=
  unlines
    [ EmptyString;
      "        You are an NLP customer review analyzer who knows how to find what named entity the review         is addressing and the aspect/opinion about this named entity. ";
      "        " ].

(** The extraction rules (first user message). *)
Definition initial_user_prompt : string :=
  unlines
    [ EmptyString;
      "        Your task is to extract both the entity and aspect/opinion that are literally mentioned in the review. /";
      "    ";
      "        Pay attention to the following (important):";
      "        - The entity and aspect/opinion MUST be explicitly mentioned in the review. Do NOT infer by yourself.";
      "        - The entity can be more than one word long (e.g., " +:+ q "Chinese restaurant" +:+ ")";
      "        - The aspect/opinion can be more than one word long (e.g., " +:+ q "delicious and fantastic" +:+ ", " +:+ q "amazingly good" +:+ ")";
      "        - There could be more than one entity-aspect pair in the same review (e.g., " +:+ q "The pizza was terrific but the music was bad" +:+ " -> {pizza: terrific, music: bad})";
      "        - If you can't find the entity or aspect/opinion, return " +:+ q "None" +:+ ".";
      "        - The review can be a full sentence but could also simply be a phrase or utterance.";
      "        - Return the response in the following JSON format: {incremental number: {" +:+ q "named_entity" +:+ ": str, " +:+ q "aspect" +:+ ": List[str]}";
      "    ";
      "        Entity - what it is that the customer is referring to in his/her review (e.g., " +:+ q "Chinese restaurant" +:+ ", " +:+ q "service" +:+ ", " +:+ q "meal" +:+ ", " +:+ q "waitress" +:+ ", " +:+ q "food" +:+ ").";
      "        Aspect (opinion) - how the entity is described by the customer (e.g., " +:+ q "great" +:+ ", " +:+ q "amazing" +:+ ", " +:+ q "took too much time to prepare" +:+ ", " +:+ q "patient" +:+ ", " +:+ q "superb" +:+ ").";
      "        " ].

(** The first acknowledgment of the assistant. *)
Definition assistant_res_1 : string :=
  unlines
    [ EmptyString;
      "        I acknowledge that I am a customer review analyzer who knows how to find search review for and find         both the named entity mentioned in the review and the aspect/opinion addressed to the named entity.         I understand your request and will accordingly look for and find both the named entity and the aspect/opinion";
      "        " ].

(** The few-shot examples (second user message). *)
Definition user_clarification_prompt : string :=
  unlines
    [ EmptyString;
      "        Below are a few examples for you to learn from (few-shot learning):";
      "        " +:+ q "The food is decent" +:+ " --> food (entity), decent (aspect)";
      "        " +:+ q "The Steak Tartare was splendid" +:+ " --> Steak Tartare (entity), splendid (aspect)";
      "        " +:+ q "The service is top-notch" +:+ " --> service (entity), top-notch (aspect)";
      "        " +:+ q "I had the duck breast special on my last visit and it was incredible." +:+ " --> duck breast special (entity), incredible (aspect)";
      "        " +:+ q "The hostess was extremely rude and offensive" +:+ " --> hostess (entity), extremely rude and offensive (aspect)";
      "        " +:+ q "Chow fun was dry ; pork shu mai was more than usually greasy and had to share a table with loud and rude family." +:+ " --> Chow fun (entity), dry (aspect); pork shu mai (entity), more than usually greasy (aspect); table (entity), had to share with loud and rude family (aspect)  ";
      "        " +:+ q "The waiter took his time with the food" +:+ " --> waiter (entity), took his time with the food (aspect)";
      "        " +:+ q "Ambience is delightful, service impeccable." +:+ " --> ambience (entity), delightful (aspect); service (entity) impeccable (aspect)";
      "        " +:+ q "I won't come back again" +:+ " --> None (entity), None (aspect)";
      "        " +:+ q "We, there were four of us, arrived at noon - the place was empty - and the staff acted like we were imposing on them and they were very rude." +:+ " --> place (entity), empty (aspect); staff (entity) acted like we were imposing on them (aspect); staff (entity) very rude (aspect)";
      "        The food is very average . . .the Thai fusion stuff is a bit too sweet , every thing they serve is too sweet here. --> food (entity), very average (aspect); Thai fusion stuff (entity), a bit too sweet (aspect); everything they serve (entity), too sweet (aspect);";
      "        The only thing I moderately enjoyed was their Grilled Chicken special with Edamame Puree. --> Grilled Chicken special with Edamame Puree (entity), moderately enjoyed (aspect);";
      "        " ].

(** The second acknowledgment of the assistant. *)
Definition assistant_res_2 : string :=
  unlines
    [ EmptyString;
      "        Please provide the review you want me to analyze.";
      "        " ].

(** The f-string of [self.review]: the review on a line of its own, the
    next line indented like the first. *)
Definition review_text (cell : string) : string :=
  unlines [ EmptyString; "        " +:+ cell; "        " ].




(* ===================================================================== *)
(** * Data of the pipeline *)
(* ===================================================================== *)

(** A chat message, [{'role': ..., 'content': ...}]. *)
Record message : Type := Message { role : string; content : string }.

(** [helper_funcs.ResponseFormat] and its [.value]. *)
Inductive ResponseFormat : Type := TEXT | JSON_OBJECT.

Definition ResponseFormat_value (f : ResponseFormat) : gmap string string :=
  match f with
  | TEXT => {[ "type" := "text" ]}
  | JSON_OBJECT => {[ "type" := "json_object" ]}
  end.

(** The keyword arguments of [client.chat.completions.create];
    [req_response_format] is the [.value] of the [ResponseFormat]. *)
Record request : Type := Request {
  req_messages : list message;
  req_model : string;
  req_frequency_penalty : float;
  req_n : Z;
  req_temperature : float;
  req_response_format : gmap string string
}.

(** What the endpoint answers: [response.choices], each choice given by
    its [.message]. *)
Record completion : Type := Completion { choices : list message }.

(** A tensor of rank two: the embeddings of a list of sentences (a row per
    sentence) or a matrix of similarities. *)
Definition tensor : Type := list (list float).

(** A [pandas.DataFrame] read from a CSV file: its columns by name, each
    with the default index 0, 1, 2, ...; the cells are texts. *)
Definition table : Type := gmap string (list string).

(** [df.loc[i, c]] and [df[c][i]]: a missing column and a missing row label
    both raise [KeyError]. *)
Definition table_at (t : table) (c : string) (i : nat) : result string :=
  match t !! c with
  | Some col =>
      match col !! i with
      | Some v => Ok v
      | None => Raise KeyError
      end
  | None => Raise KeyError
  end.

(** Objects are referred to by their location in the store. *)
Definition loc : Type := positive.

(** The attributes of a [ModelEntityAspectGeneration] object; [gen_df] is
    the reference [self.df]. *)
Record gen_obj : Type := GenObj {
  gen_df : loc;
  gen_review : string;
  gen_messages : list message;
  gen_review_analysis : pyval;
  gen_true_entity : list pyval;
  gen_true_aspect : list pyval;
  gen_predicted_entity : list pyval;
  gen_predicted_aspect : list pyval;
  gen_generation : list pyval   (* a tuple *)
}.

(** The attributes of a [ModelEvaluation] object; [eval_df] and
    [eval_model_gen_object] are references, the keep flags are [None] until
    [invoke_evaluation_logic] sets them. *)
Record eval_obj : Type := EvalObj {
  eval_df : loc;
  eval_model_gen_object : loc;
  eval_threshold : float;
  eval_entity_cosine_score : float;
  eval_aspect_cosine_score : float;
  eval_keep_entity_prediction : option bool;
  eval_keep_aspect_prediction : option bool
}.

(** What a location holds. *)
Inductive object : Type :=
| ODataFrame (t : table)
| OGen (g : gen_obj)
| OEval (e : eval_obj).

(** The state of a run: the objects, and the completion requests issued so
    far, oldest first. *)
Record world : Type := World {
  heap : gmap loc object;
  sent : list request
}.

(** ** Attribute assignment

    [set_gen_x v g] is [g] after [self.x = v], and likewise for the
    evaluation object. *)

Definition set_gen_review (v : string) (g : gen_obj) : gen_obj :=
  GenObj (gen_df g) v (gen_messages g) (gen_review_analysis g)
    (gen_true_entity g) (gen_true_aspect g) (gen_predicted_entity g)
    (gen_predicted_aspect g) (gen_generation g).
Definition set_gen_messages (v : list message) (g : gen_obj) : gen_obj :=
  GenObj (gen_df g) (gen_review g) v (gen_review_analysis g)
    (gen_true_entity g) (gen_true_aspect g) (gen_predicted_entity g)
    (gen_predicted_aspect g) (gen_generation g).
Definition set_gen_review_analysis (v : pyval) (g : gen_obj) : gen_obj :=
  GenObj (gen_df g) (gen_review g) (gen_messages g) v
    (gen_true_entity g) (gen_true_aspect g) (gen_predicted_entity g)
    (gen_predicted_aspect g) (gen_generation g).
Definition set_gen_true_entity (v : list pyval) (g : gen_obj) : gen_obj :=
  GenObj (gen_df g) (gen_review g) (gen_messages g) (gen_review_analysis g)
    v (gen_true_aspect g) (gen_predicted_entity g)
    (gen_predicted_aspect g) (gen_generation g).
Definition set_gen_true_aspect (v : list pyval) (g : gen_obj) : gen_obj :=
  GenObj (gen_df g) (gen_review g) (gen_messages g) (gen_review_analysis g)
    (gen_true_entity g) v (gen_predicted_entity g)
    (gen_predicted_aspect g) (gen_generation g).
Definition set_gen_predicted_entity (v : list pyval) (g : gen_obj) : gen_obj :=
  GenObj (gen_df g) (gen_review g) (gen_messages g) (gen_review_analysis g)
    (gen_true_entity g) (gen_true_aspect g) v
    (gen_predicted_aspect g) (gen_generation g).
Definition set_gen_predicted_aspect (v : list pyval) (g : gen_obj) : gen_obj :=
  GenObj (gen_df g) (gen_review g) (gen_messages g) (gen_review_analysis g)
    (gen_true_entity g) (gen_true_aspect g) (gen_predicted_entity g)
    v (gen_generation g).
Definition set_gen_generation (v : list pyval) (g : gen_obj) : gen_obj :=
  GenObj (gen_df g) (gen_review g) (gen_messages g) (gen_review_analysis g)
    (gen_true_entity g) (gen_true_aspect g) (gen_predicted_entity g)
    (gen_predicted_aspect g) v.

Definition set_eval_entity_cosine_score (v : float) (e : eval_obj) : eval_obj :=
  EvalObj (eval_df e) (eval_model_gen_object e) (eval_threshold e)
    v (eval_aspect_cosine_score e)
    (eval_keep_entity_prediction e) (eval_keep_aspect_prediction e).
Definition set_eval_aspect_cosine_score (v : float) (e : eval_obj) : eval_obj :=
  EvalObj (eval_df e) (eval_model_gen_object e) (eval_threshold e)
    (eval_entity_cosine_score e) v
    (eval_keep_entity_prediction e) (eval_keep_aspect_prediction e).
Definition set_eval_keep_entity_prediction (v : option bool) (e : eval_obj)
  : eval_obj :=
  EvalObj (eval_df e) (eval_model_gen_object e) (eval_threshold e)
    (eval_entity_cosine_score e) (eval_aspect_cosine_score e)
    v (eval_keep_aspect_prediction e).
Definition set_eval_keep_aspect_prediction (v : option bool) (e : eval_obj)
  : eval_obj :=
  EvalObj (eval_df e) (eval_model_gen_object e) (eval_threshold e)
    (eval_entity_cosine_score e) (eval_aspect_cosine_score e)
    (eval_keep_entity_prediction e) v.

(* ===================================================================== *)
(** * The monad of methods: a store and exceptions *)
(* ===================================================================== *)

Definition M (A : Type) : Type := world → result A * world.

Definition ret {A} (a : A) : M A := λ w, (Ok a, w).

Definition raise {A} (e : exn) : M A := λ w, (Raise e, w).

Definition bind {A B} (m : M A) (k : A → M B) : M B :=
  λ w, match m w with
       | (Ok a, w') => k a w'
       | (Raise e, w') => (Raise e, w')
       end.

Notation "'let*' x ':=' m 'in' k" := (bind m (λ x, k))
  (at level 10, x name, m at level 100, k at level 200,
   format "'[v' 'let*'  x  ':='  m  'in' '/' k ']'").
Notation "m ';;' k" := (bind m (λ _, k))
  (at level 100, k at level 200, right associativity).

(** A pure computation that may raise. *)
Definition lift {A} (r : result A) : M A := λ w, (r, w).

(** [C(...)] allocates the object at a location the store does not use. *)
Definition alloc (o : object) : M loc :=
  λ w, let l := fresh (dom (heap w)) in
       (Ok l, World (<[l := o]> (heap w)) (sent w)).

(** Reading the object a reference designates: the attribute reads of the
    methods go through these, and fail when the object is not of the class
    whose attributes are read. *)
Definition get_table (l : loc) : M table :=
  λ w, match heap w !! l with
       | Some (ODataFrame t) => (Ok t, w)
       | _ => (Raise AttributeError, w)
       end.

Definition get_gen (l : loc) : M gen_obj :=
  λ w, match heap w !! l with
       | Some (OGen g) => (Ok g, w)
       | _ => (Raise AttributeError, w)
       end.

Definition get_eval (l : loc) : M eval_obj :=
  λ w, match heap w !! l with
       | Some (OEval e) => (Ok e, w)
       | _ => (Raise AttributeError, w)
       end.

(** [self.attr = v] on a generation object, on an evaluation object. *)
Definition update_gen (l : loc) (f : gen_obj → gen_obj) : M unit :=
  λ w, match heap w !! l with
       | Some (OGen g) => (Ok tt, World (<[l := OGen (f g)]> (heap w)) (sent w))
       | _ => (Raise AttributeError, w)
       end.

Definition update_eval (l : loc) (f : eval_obj → eval_obj) : M unit :=
  λ w, match heap w !! l with
       | Some (OEval e) => (Ok tt, World (<[l := OEval (f e)]> (heap w)) (sent w))
       | _ => (Raise AttributeError, w)
       end.

(* ===================================================================== *)
(** * The services the repository calls *)
(* ===================================================================== *)

(** None of these is implemented in the repository; they are the interface
    the pipeline is written against.

    - [chat_completions_create history req]: the answer of
      [client.chat.completions.create] to [req], which may depend on the
      requests made before;
    - [literal_eval]: [ast.literal_eval];
    - [encode]: [model.encode(_, convert_to_tensor=True)] of the sentence
      embedding model;
    - [cos_sim a b]: [util.cos_sim], the matrix of the similarities of the
      rows of [a] and the rows of [b];
    - [read_csv]: [pandas.read_csv].

    They are taken as functions of their arguments: they read nothing of
    the store and change no object in it. *)
Class Services : Type := {
  chat_completions_create : list request → request → result completion;
  literal_eval : string → result pyval;
  encode : list pyval → result tensor;
  cos_sim : tensor → tensor → tensor;
  read_csv : string → result table
}.

Section Pipeline.

Context `{Services}.

(* --------------------------------------------------------------------- *)
(** ** [helper_funcs.py] *)
(* --------------------------------------------------------------------- *)

(** The call of the endpoint: the request is recorded, the answer is the
    endpoint's. *)
Definition create (req : request) : M completion :=
  λ w, (chat_completions_create (sent w) req,
        World (heap w) (sent w ++ [req])).

(** [get_completion_from_messages]; an argument that is not supplied is
    [None] and takes the default of the signature. *)
Definition get_completion_from_messages
    (messages : list message)
    (model : option string)
    (frequency_penalty : option float)
    (n : option Z)
    (temperature : option float)
    (response_format : option ResponseFormat) : M string :=
  let model := default "gpt-3.5-turbo-1106" model in
  let frequency_penalty := default 0%float frequency_penalty in
  let n := default 1%Z n in
  let temperature := default 0%float temperature in
  let response_format := default TEXT response_format in
  let* response :=
    create (Request messages model frequency_penalty n temperature
              (ResponseFormat_value response_format)) in
  match choices response with
  | c :: _ => ret (content c)
  | [] => raise IndexError
  end.

(* --------------------------------------------------------------------- *)
(** ** [input_data.py] *)
(* --------------------------------------------------------------------- *)

Definition load_data (path : string) : M loc :=
  let* data_df := lift (read_csv path) in
  alloc (ODataFrame data_df).

(* --------------------------------------------------------------------- *)
(** ** [model_entity_aspect_generation.py] *)
(* --------------------------------------------------------------------- *)

(** The list of messages of [order_chat_messages], given [self.review]. *)
Definition chat_messages (review : string) : list message :=
  [ Message "system" system_prompt;
    Message "user" initial_user_prompt;
    Message "assistant" assistant_res_1;
    Message "user" user_clarification_prompt;
    Message "assistant" assistant_res_2;
    Message "user" review ].

(** [df.loc[i, c]] and [df[c][i]] on the data frame stored at [df]. *)
Definition table_cell (df : loc) (c : string) (i : nat) : M string :=
  let* t := get_table df in
  lift (table_at t c i).

Definition order_chat_messages (self : loc) : M unit :=
  let* g := get_gen self in
  let* cell := table_cell (gen_df g) "review" 0 in
  update_gen self (set_gen_review (review_text cell));;
  let* g := get_gen self in
  update_gen self (set_gen_messages (chat_messages (gen_review g)));;
  let* g := get_gen self in
  let* review_analysis :=
    get_completion_from_messages (gen_messages g)
      None None None None (Some JSON_OBJECT) in
  let* v := lift (literal_eval review_analysis) in
  update_gen self (set_gen_review_analysis v).

Definition extract_true_val (self : loc) : M unit :=
  let* g := get_gen self in
  let* e := table_cell (gen_df g) "true_entity" 0 in
  update_gen self (set_gen_true_entity [PStr e]);;
  let* g := get_gen self in
  let* a := table_cell (gen_df g) "true_aspect" 0 in
  update_gen self (set_gen_true_aspect [PStr a]).

Definition extract_tuple (self : loc) : M unit :=
  let* g := get_gen self in
  let* entry := lift (getitem_str (gen_review_analysis g) "1") in
  let* predicted_entity := lift (getitem_str entry "named_entity") in
  let* g := get_gen self in
  let* entry := lift (getitem_str (gen_review_analysis g) "1") in
  let* aspects := lift (getitem_str entry "aspect") in
  let* predicted_aspect := lift (getitem_0 aspects) in
  update_gen self (set_gen_generation [predicted_entity; predicted_aspect]);;
  update_gen self (set_gen_predicted_entity [predicted_entity]);;
  update_gen self (set_gen_predicted_aspect [predicted_aspect]).

(** [ModelEntityAspectGeneration(df)]: the new object with the attributes
    [__init__] first gives it, then the three steps. *)
Definition ModelEntityAspectGeneration (df : loc) : M loc :=
  let* self := alloc (OGen (GenObj df EmptyString [] (PDict ∅) [] [] [] [] [])) in
  order_chat_messages self;;
  extract_true_val self;;
  extract_tuple self;;
  ret self.

(* --------------------------------------------------------------------- *)
(** ** [model_evaluation.py] *)
(* --------------------------------------------------------------------- *)

(** [t[0, 0].item()] *)
Definition item_0_0 (t : tensor) : result float :=
  match t with
  | (x :: _) :: _ => Ok x
  | _ => Raise IndexError
  end.

Definition extract_cosine_score (true_val predicted_val : list pyval)
  : M float :=
  let* embeddings_true := lift (encode true_val) in
  let* embeddings_pred := lift (encode predicted_val) in
  let cosine_scores_tensor := cos_sim embeddings_true embeddings_pred in
  let* cosine_score := lift (item_0_0 cosine_scores_tensor) in
  ret cosine_score.

Definition invoke_extract_cosine_score_logic (self : loc) : M unit :=
  let* e := get_eval self in
  let* g := get_gen (eval_model_gen_object e) in
  let* s := extract_cosine_score (gen_true_entity g) (gen_predicted_entity g) in
  update_eval self (set_eval_entity_cosine_score s);;
  let* e := get_eval self in
  let* g := get_gen (eval_model_gen_object e) in
  let* s := extract_cosine_score (gen_true_aspect g) (gen_predicted_aspect g) in
  update_eval self (set_eval_aspect_cosine_score s).

Definition evaluate (self : loc) (cosine_score : float) : M bool :=
  let* e := get_eval self in
  if PyFloat.ge cosine_score (eval_threshold e)
  then ret true
  else ret false.

Definition invoke_evaluation_logic (self : loc) : M unit :=
  let* e := get_eval self in
  let* b := evaluate self (eval_entity_cosine_score e) in
  update_eval self (set_eval_keep_entity_prediction (Some b));;
  let* e := get_eval self in
  let* b := evaluate self (eval_aspect_cosine_score e) in
  update_eval self (set_eval_keep_aspect_prediction (Some b)).

(** The default of [threshold_score]: the float the literal [0.85]
    denotes. *)
#[warnings="-inexact-float"]
Definition threshold_score_default : float := 0.85%float.

(** [ModelEvaluation(df, model_gen_object, threshold_score=0.85)] *)
Definition ModelEvaluation (df : loc) (model_gen_object : loc)
    (threshold_score : option float) : M loc :=
  let threshold_score := default threshold_score_default threshold_score in
  let* self :=
    alloc (OEval (EvalObj df model_gen_object threshold_score
                    0%float 0%float None None)) in
  invoke_extract_cosine_score_logic self;;
  invoke_evaluation_logic self;;
  ret self.

(* --------------------------------------------------------------------- *)
(** ** [main.py] *)
(* --------------------------------------------------------------------- *)

Definition flow : M loc :=
  let* df := load_data "sample_review.csv" in
  let* model_gen_obj := ModelEntityAspectGeneration df in
  let* model_eval_obj := ModelEvaluation df model_gen_obj None in
  ret model_eval_obj.

End Pipeline.


(* ===================================================================== *)
(** * Outcomes of the methods, as values *)
(* ===================================================================== *)

(** The attributes of [g] with the prediction [(e, a)] written into them. *)
Definition with_prediction (e a : pyval) (g : gen_obj) : gen_obj :=
  GenObj (gen_df g) (gen_review g) (gen_messages g) (gen_review_analysis g)
    (gen_true_entity g) (gen_true_aspect g) [e] [a] [e; a].

(** The two-pair response of the example of the specification. *)
Definition two_pair_response : pyval :=
  PDict {[ "1" := PDict {[ "named_entity" := PStr "food";
                           "aspect" := PList [PStr "decent"; PStr "fresh"] ]};
           "2" := PDict {[ "named_entity" := PStr "service";
                           "aspect" := PList [PStr "slow"] ]} ]}.

Section Outcomes.

Context `{Services}.

(** The score of a pair of lists, as a value: [extract_cosine_score] only
    computes. *)
Definition cosine_score (true_val predicted_val : list pyval) : result float :=
  match encode true_val with
  | Ok embeddings_true =>
      match encode predicted_val with
      | Ok embeddings_pred =>
          item_0_0 (cos_sim embeddings_true embeddings_pred)
      | Raise x => Raise x
      end
  | Raise x => Raise x
  end.

End Outcomes.

(** The attributes [ModelEvaluation.__init__] gives the new object before
    the two steps. *)
Definition eval_init (df gen : loc) (threshold_score : option float) : eval_obj :=
  EvalObj df gen (default threshold_score_default threshold_score)
    0%float 0%float None None.

(** The attributes once both steps are done. *)
Definition eval_done (df gen : loc) (t se sa : float) : eval_obj :=
  EvalObj df gen t se sa (Some (PyFloat.ge se t)) (Some (PyFloat.ge sa t)).

(** The request of the extraction stage for a list of messages: the
    defaults of the client, and the JSON-object response format. *)
Definition json_request (messages : list message) : request :=
  Request messages "gpt-3.5-turbo-1106" 0%float 1%Z 0%float
    (ResponseFormat_value JSON_OBJECT).

(** [response.choices[0].message.content] of an answer of the endpoint. *)
Definition first_choice (r : result completion) : result string :=
  match r with
  | Ok (Completion (c :: _)) => Ok (content c)
  | Ok (Completion []) => Raise IndexError
  | Raise e => Raise e
  end.

(** What [extract_tuple] reads in a parsed completion. *)
Definition prediction_of (v : pyval) : result (pyval * pyval) :=
  match getitem_str v "1" with
  | Ok entry =>
      match getitem_str entry "named_entity" with
      | Ok e =>
          match getitem_str entry "aspect" with
          | Ok aspects =>
              match getitem_0 aspects with
              | Ok a => Ok (e, a)
              | Raise x => Raise x
              end
          | Raise x => Raise x
          end
      | Raise x => Raise x
      end
  | Raise x => Raise x
  end.

(** The attributes [ModelEntityAspectGeneration.__init__] first gives the
    new object. *)
Definition gen_init (df : loc) : gen_obj :=
  GenObj df EmptyString [] (PDict ∅) [] [] [] [] [].

Section GenerationOutcomes.

Context `{Services}.

(** The outcome of each method on the attributes [g] of [self], for the
    table [t] of [self.df] and the requests [hist] made so far: what the
    method returns or raises, the attributes it leaves, and (for
    [order_chat_messages]) the requests it issues. *)
Definition order_outcome (t : table) (hist : list request) (g : gen_obj)
  : result unit * gen_obj * list request :=
  match table_at t "review" 0 with
  | Raise x => (Raise x, g, [])
  | Ok cell =>
      let msgs := chat_messages (review_text cell) in
      let g2 := set_gen_messages msgs (set_gen_review (review_text cell) g) in
      match first_choice (chat_completions_create hist (json_request msgs)) with
      | Raise x => (Raise x, g2, [json_request msgs])
      | Ok text =>
          match literal_eval text with
          | Raise x => (Raise x, g2, [json_request msgs])
          | Ok v => (Ok tt, set_gen_review_analysis v g2, [json_request msgs])
          end
      end
  end.

Definition true_val_outcome (t : table) (g : gen_obj) : result unit * gen_obj :=
  match table_at t "true_entity" 0 with
  | Raise x => (Raise x, g)
  | Ok e =>
      let g1 := set_gen_true_entity [PStr e] g in
      match table_at t "true_aspect" 0 with
      | Raise x => (Raise x, g1)
      | Ok a => (Ok tt, set_gen_true_aspect [PStr a] g1)
      end
  end.

Definition tuple_outcome (g : gen_obj) : result unit * gen_obj :=
  match prediction_of (gen_review_analysis g) with
  | Ok (e, a) => (Ok tt, with_prediction e a g)
  | Raise x => (Raise x, g)
  end.

(** The outcome of the construction: the three steps in turn, the first
    failure ends it. *)
Definition generation_outcome (df : loc) (t : table) (hist : list request)
  : result unit * gen_obj * list request :=
  let '(r1, g1, reqs) := order_outcome t hist (gen_init df) in
  match r1 with
  | Raise x => (Raise x, g1, reqs)
  | Ok _ =>
      let '(r2, g2) := true_val_outcome t g1 in
      match r2 with
      | Raise x => (Raise x, g2, reqs)
      | Ok _ =>
          let '(r3, g3) := tuple_outcome g2 in
          (r3, g3, reqs)
      end
  end.

End GenerationOutcomes.

(** The value a constructor returns: the new object, unless a step raised. *)
Definition returning {A} (l : loc) (r : result A) : result loc :=
  match r with
  | Ok _ => Ok l
  | Raise x => Raise x
  end.

(* ===================================================================== *)
(** * Notions used in the statements *)
(* ===================================================================== *)

Section Statements.

Context `{Services}.

(** [s] is the scalar at position (0, 0) of the matrix of the cosine
    similarities of the embeddings of [true_val] and of [predicted_val]. *)
Definition field_score (true_val predicted_val : list pyval) (s : float) : Prop :=
  ∃ (embeddings_true embeddings_pred : tensor) (row : list float),
    encode true_val = Ok embeddings_true ∧
    encode predicted_val = Ok embeddings_pred ∧
    cos_sim embeddings_true embeddings_pred !! 0 = Some row ∧
    row !! 0 = Some s.

End Statements.

(** Row 0 of the three columns the pipeline reads. *)
Definition row_0 (t : table) : result string * result string * result string :=
  (table_at t "review" 0, table_at t "true_entity" 0, table_at t "true_aspect" 0).

(** The object at [l] is a generation object that holds no prediction. *)
Definition no_prediction (w : world) (l : loc) : Prop :=
  ∃ g, heap w !! l = Some (OGen g) ∧
       gen_predicted_entity g = [] ∧
       gen_predicted_aspect g = [] ∧
       gen_generation g = [].

(** A parsed value that is not a mapping. *)
Definition not_mapping (v : pyval) : Prop :=
  match v with
  | PDict _ => False
  | _ => True
  end.

(** The ways the completion makes the extraction fail, with the exception
    of each: [literal_eval] raised; the literal is not a mapping; the
    mapping has no key ["1"]; the aspect list of the entry of key ["1"] is
    empty. *)
Inductive extraction_failure : result pyval → exn → Prop :=
| fail_parse (x : exn) :
    extraction_failure (Raise x) x
| fail_not_mapping (v : pyval) :
    not_mapping v →
    extraction_failure (Ok v) TypeError
| fail_missing_key (d : gmap string pyval) :
    d !! "1" = None →
    extraction_failure (Ok (PDict d)) KeyError
| fail_empty_aspect (d entry : gmap string pyval) (e : pyval) :
    d !! "1" = Some (PDict entry) →
    entry !! "named_entity" = Some e →
    entry !! "aspect" = Some (PList []) →
    extraction_failure (Ok (PDict d)) IndexError.

(** The invariant of a constructed generation object: one true value and
    one predicted value per field, and the tuple of the two predictions. *)
Definition gen_invariant (g : gen_obj) : Prop :=
  ∃ te ta pe pa,
    gen_true_entity g = [te] ∧
    gen_true_aspect g = [ta] ∧
    gen_predicted_entity g = [pe] ∧
    gen_predicted_aspect g = [pa] ∧
    gen_generation g = [pe; pa].

Definition gen_invariant_at (l : loc) (w : world) : Prop :=
  ∃ g, heap w !! l = Some (OGen g) ∧ gen_invariant g.

(** A computation keeps a property of the store, whatever it returns. *)
Definition preserves {A} (I : world → Prop) (m : M A) : Prop :=
  ∀ w, I w → I (m w).2.

(* ===================================================================== *)
(** * A test double of the services

    The endpoint answers every request with one choice of content [text];
    [literal_eval] parses every text to [parsed]; a sentence is embedded as
    the vector of its length, and two embeddings have similarity 1 when
    they are equal and 0.5 otherwise; every path holds the one-row table of
    the end-to-end scenario. *)
(* ===================================================================== *)

Definition sample_table : table :=
  {[ "review" := ["The food is decent"];
     "true_entity" := ["food"];
     "true_aspect" := ["decent"] ]}.

Definition mock_embedding (v : pyval) : list float :=
  match v with
  | PStr s => [PrimFloat.of_uint63 (Uint63.of_Z (Z.of_nat (String.length s)))]
  | _ => [0%float]
  end.

Definition mock_similarity (x y : list float) : float :=
  match x, y with
  | [a], [b] => if (a =? b)%float then 1%float else 0.5%float
  | _, _ => 0%float
  end.

Definition mock_services (text : string) (parsed : result pyval) : Services :=
  {| chat_completions_create := λ _ _, Ok (Completion [Message "assistant" text]);
     literal_eval := λ _, parsed;
     encode := λ l, Ok (map mock_embedding l);
     cos_sim := λ a b, map (λ x, map (mock_similarity x) b) a;
     read_csv := λ _, Ok sample_table |}.

(** The store with the sample table alone, and the store of the scenario
    once an evaluation object of threshold [t] is built. *)
Definition sample_world : world :=
  World {[ 1%positive := ODataFrame sample_table ]} [].

Definition one_pair_response : pyval :=
  PDict {[ "1" := PDict {[ "named_entity" := PStr "food";
                           "aspect" := PList [PStr "decent"] ]} ]}.

Definition eval_world (t : float) : world :=
  World {[ 3%positive := OEval (EvalObj 1%positive 2%positive t 0%float 0%float None None) ]} [].

(** The end-to-end scenario: the completion is the one-pair answer. *)
Definition one_pair_text : string :=
  "{" +:+ q "1" +:+ ": {" +:+ q "named_entity" +:+ ": " +:+ q "food" +:+ ", "
  +:+ q "aspect" +:+ ": [" +:+ q "decent" +:+ "]}}".

Definition scenario_services : Services :=
  mock_services one_pair_text (Ok one_pair_response).

(** The store once the generation object is built over the sample table,
    and once the evaluation object is built too. *)
Definition generated_world : world :=
  (@ModelEntityAspectGeneration scenario_services 1%positive sample_world).2.

Definition evaluated_world : world :=
  (@ModelEvaluation scenario_services 1%positive 2%positive None
     generated_world).2.

(** The attributes of the generation object of the scenario. *)
Definition scenario_gen : gen_obj :=
  GenObj 1%positive (review_text "The food is decent")
    (chat_messages (review_text "The food is decent"))
    one_pair_response [PStr "food"] [PStr "decent"]
    [PStr "food"] [PStr "decent"] [PStr "food"; PStr "decent"].

(** A second run of the scenario, in which the completion names another
    aspect for the same entity. *)
Definition other_aspect_response : pyval :=
  PDict {[ "1" := PDict {[ "named_entity" := PStr "food";
                           "aspect" := PList [PStr "tasty"] ]} ]}.

Definition other_aspect_services : Services :=
  mock_services one_pair_text (Ok other_aspect_response).

Definition other_generated_world : world :=
  (@ModelEntityAspectGeneration other_aspect_services 1%positive sample_world).2.

Definition other_evaluated_world : world :=
  (@ModelEvaluation other_aspect_services 1%positive 2%positive None
     other_generated_world).2.

Definition other_gen : gen_obj :=
  GenObj 1%positive (review_text "The food is decent")
    (chat_messages (review_text "The food is decent"))
    other_aspect_response [PStr "food"] [PStr "decent"]
    [PStr "food"] [PStr "tasty"] [PStr "food"; PStr "tasty"].

(* ===================================================================== *)
(** * The operations of the repository *)
(* ===================================================================== *)

(** Every function and method of the five modules, with its arguments. *)
Inductive operation : Type :=
| op_get_completion_from_messages
    (messages : list message) (model : option string)
    (frequency_penalty : option float) (n : option Z)
    (temperature : option float) (response_format : option ResponseFormat)
| op_load_data (path : string)
| op_order_chat_messages (self : loc)
| op_extract_true_val (self : loc)
| op_extract_tuple (self : loc)
| op_ModelEntityAspectGeneration (df : loc)
| op_extract_cosine_score (true_val predicted_val : list pyval)
| op_invoke_extract_cosine_score_logic (self : loc)
| op_evaluate (self : loc) (cosine_score : float)
| op_invoke_evaluation_logic (self : loc)
| op_ModelEvaluation (df model_gen_object : loc) (threshold_score : option float)
| op_flow.

Section Operations.

Context `{Services}.

(** The store an operation leaves, whether it returns or raises. *)
Definition exec (op : operation) (w : world) : world :=
  match op with
  | op_get_completion_from_messages messages model fp n temp rf =>
      (get_completion_from_messages messages model fp n temp rf w).2
  | op_load_data path => (load_data path w).2
  | op_order_chat_messages self => (order_chat_messages self w).2
  | op_extract_true_val self => (extract_true_val self w).2
  | op_extract_tuple self => (extract_tuple self w).2
  | op_ModelEntityAspectGeneration df => (ModelEntityAspectGeneration df w).2
  | op_extract_cosine_score tv pv => (extract_cosine_score tv pv w).2
  | op_invoke_extract_cosine_score_logic self =>
      (invoke_extract_cosine_score_logic self w).2
  | op_evaluate self s => (evaluate self s w).2
  | op_invoke_evaluation_logic self => (invoke_evaluation_logic self w).2
  | op_ModelEvaluation df gen ts => (ModelEvaluation df gen ts w).2
  | op_flow => (flow w).2
  end.

Definition exec_all (ops : list operation) (w : world) : world :=
  foldl (λ w op, exec op w) w ops.

End Operations.

(** The same services reading another CSV file. *)
Definition with_read_csv (S : Services) (f : string → result table) : Services :=
  {| chat_completions_create := @chat_completions_create S;
     literal_eval := @literal_eval S;
     encode := @encode S;
     cos_sim := @cos_sim S;
     read_csv := f |}.

(** The sample table followed by more rows, with one more column. *)
Definition longer_table : table :=
  {[ "review" := ["The food is decent"; "The service is top-notch"];
     "true_entity" := ["food"; "service"];
     "true_aspect" := ["decent"; "top-notch"];
     "stars" := ["3"; "5"] ]}.

(** The store in the middle of the construction of the scenario: the table
    and the generation object as [__init__] first sets it. *)
Definition constructing_world : world :=
  World (<[2%positive := OGen (gen_init 1%positive)]>
           {[ 1%positive := ODataFrame sample_table ]}) [].

(** Completions that make the extraction fail. *)
Definition malformed_services : Services :=
  mock_services "{1: " (Raise (ParseError "unexpected EOF")).

Definition no_key_services : Services :=
  mock_services "{}" (Ok (PDict ∅)).

Definition not_mapping_services : Services :=
  mock_services "[]" (Ok (PList [])).

Definition empty_aspect_entry : gmap string pyval :=
  {[ "named_entity" := PStr "food"; "aspect" := PList [] ]}.

Definition empty_aspect_services : Services :=
  mock_services "empty aspect" (Ok (PDict {[ "1" := PDict empty_aspect_entry ]})).

(* ===================================================================== *)
(** * More test doubles: failing services and incomplete tables *)
(* ===================================================================== *)

(** The same services behind another endpoint. *)
Definition with_create (S : Services)
    (f : list request → request → result completion) : Services :=
  {| chat_completions_create := f;
     literal_eval := @literal_eval S;
     encode := @encode S;
     cos_sim := @cos_sim S;
     read_csv := @read_csv S |}.

(** An endpoint that is down, and one that answers without any choice. *)
Definition down_services : Services :=
  with_create scenario_services (λ _ _, Raise (ApiError "connection error")).

Definition no_choice_services : Services :=
  with_create scenario_services (λ _ _, Ok (Completion [])).

(** No CSV file at the path. *)
Definition no_file_services : Services :=
  with_read_csv scenario_services (λ _, Raise (ApiError "file not found")).

(** Tables that lack a column, and the stores that hold them. *)
Definition no_review_table : table :=
  {[ "true_entity" := ["food"]; "true_aspect" := ["decent"] ]}.

Definition no_aspect_table : table :=
  {[ "review" := ["The food is decent"]; "true_entity" := ["food"] ]}.

Definition no_review_world : world :=
  World {[ 1%positive := ODataFrame no_review_table ]} [].

Definition no_aspect_world : world :=
  World {[ 1%positive := ODataFrame no_aspect_table ]} [].

(** The generation object once [order_chat_messages] is done in the
    scenario, over the table without true aspect. *)
Definition analysed_gen : gen_obj :=
  GenObj 1%positive (review_text "The food is decent")
    (chat_messages (review_text "The food is decent"))
    one_pair_response [] [] [] [] [].

Definition analysed_world : world :=
  World (<[2%positive := OGen analysed_gen]>
           {[ 1%positive := ODataFrame no_aspect_table ]}) [].

(** A completion whose aspect is a bare string, not a list. *)
Definition string_aspect_entry : gmap string pyval :=
  {[ "named_entity" := PStr "food"; "aspect" := PStr "decent" ]}.

Definition string_aspect_response : pyval :=
  PDict {[ "1" := PDict string_aspect_entry ]}.

Definition string_aspect_world : world :=
  World {[ 2%positive :=
             OGen (GenObj 1%positive EmptyString [] string_aspect_response
                     [] [] [] [] []) ]} [].

(** The same with an aspect that starts with a character of two bytes, the
    e with an acute accent (bytes 195 and 169 in UTF-8). *)
Definition e_acute : string :=
  String (Ascii.ascii_of_nat 195) (String (Ascii.ascii_of_nat 169) EmptyString).

Definition accent_aspect_entry : gmap string pyval :=
  {[ "named_entity" := PStr "plat"; "aspect" := PStr (e_acute +:+ "pice") ]}.

Definition accent_aspect_response : pyval :=
  PDict {[ "1" := PDict accent_aspect_entry ]}.

Definition accent_aspect_world : world :=
  World {[ 2%positive :=
             OGen (GenObj 1%positive EmptyString [] accent_aspect_response
                     [] [] [] [] []) ]} [].

(** A generation object that holds an earlier analysis and prediction,
    over the sample table. *)
Definition stale_world : world :=
  World (<[2%positive := OGen scenario_gen]>
           {[ 1%positive := ODataFrame sample_table ]}) [].

(** The IEEE not-a-number. *)
Definition nan : float := PrimFloat.nan.

(* ===================================================================== *)
(** * Facts on the comparison of floats *)
(* ===================================================================== *)

Module PyFloatFacts.
Import PyFloat.

Lemma ge_spec x y : ge x y = SFleb (Prim2SF y) (Prim2SF x).
Proof. apply leb_spec. Qed.

Lemma gt_spec x y : gt x y = SFltb (Prim2SF y) (Prim2SF x).
Proof. apply ltb_spec. Qed.

Lemma le_spec x y : le x y = SFleb (Prim2SF x) (Prim2SF y).
Proof. apply leb_spec. Qed.

Lemma lt_spec x y : lt x y = SFltb (Prim2SF x) (Prim2SF y).
Proof. apply ltb_spec. Qed.

Lemma cont_Eq_spec m1 m2 :
  match Pos.compare_cont Eq m1 m2 with
  | Eq => m1 = m2
  | Lt => (Z.pos m1 < Z.pos m2)%Z
  | Gt => (Z.pos m2 < Z.pos m1)%Z
  end.
Proof.
  change (Pos.compare_cont Eq m1 m2) with (m1 ?= m2)%positive.
  destruct (Pos.compare_spec m1 m2); lia.
Qed.

Ltac order_cases :=
  repeat match goal with
    | |- context [Z.compare ?a ?b] => destruct (Z.compare_spec a b)
    | |- context [Pos.compare_cont Eq ?a ?b] =>
        pose proof (cont_Eq_spec a b);
        destruct (Pos.compare_cont Eq a b)
    end;
  simpl; split; intros; subst;
  repeat match goal with
    | H : _ ∨ _ = _ :> (Z * Z * Z) |- _ => destruct H
    | H : _ = _ :> (Z * Z * Z) |- _ => inversion H; clear H
    end;
  subst; try discriminate; try reflexivity; try lia; try (right; reflexivity).

Lemma SFltb_key a b : SFltb a b = true ↔ key_lt (key a) (key b).
Proof.
  unfold SFltb.
  destruct a as [[]|[]| |[] ma ea], b as [[]|[]| |[] mb eb];
    simpl; order_cases.
Qed.

Lemma SFleb_key a b : SFleb a b = true ↔ key_le (key a) (key b).
Proof.
  unfold SFleb.
  destruct a as [[]|[]| |[] ma ea], b as [[]|[]| |[] mb eb];
    simpl; order_cases.
Qed.

Lemma key_le_lt_trans x y z : key_le x y → key_lt y z → ¬ key_le z x.
Proof.
  destruct x as [[[a b] c]|], y as [[[a' b'] c']|], z as [[[a'' b''] c'']|];
    simpl; try tauto.
  intros [H|H] H' [H''|H'']; try inversion H; try inversion H''; subst; lia.
Qed.

Lemma key_le_refl_float a : key a ≠ None → key_le (key a) (key a).
Proof. destruct (key a); simpl; [auto | congruence]. Qed.

Lemma SFleb_SFltb_trans a b c :
  SFleb a b = true → SFltb b c = true → SFleb c a = false.
Proof.
  rewrite SFleb_key, SFltb_key. intros Hab Hbc.
  apply not_true_is_false. rewrite SFleb_key.
  exact (key_le_lt_trans _ _ _ Hab Hbc).
Qed.

Lemma SFltb_not_SFleb a b : SFltb a b = true → SFleb b a = false.
Proof.
  intros Hab. apply SFleb_SFltb_trans with (b := a); [|exact Hab].
  apply SFleb_key. apply SFltb_key in Hab.
  apply key_le_refl_float. destruct (key a); simpl in *; [congruence | tauto].
Qed.

Lemma le_lt_not_ge s b t : le s b = true → lt b t = true → ge s t = false.
Proof. rewrite le_spec, lt_spec, ge_spec. apply SFleb_SFltb_trans. Qed.

Lemma lt_not_ge s t : lt s t = true → ge s t = false.
Proof. rewrite lt_spec, ge_spec. apply SFltb_not_SFleb. Qed.

End PyFloatFacts.

(* ===================================================================== *)
(** * Running the primitives *)
(* ===================================================================== *)

Lemma bind_run {A B} (m : M A) (k : A → M B) w :
  bind m k w =
  match m w with
  | (Ok a, w') => k a w'
  | (Raise e, w') => (Raise e, w')
  end.
Proof. reflexivity. Qed.

Lemma bind_ok {A B} (m : M A) (k : A → M B) w a w' :
  m w = (Ok a, w') → bind m k w = k a w'.
Proof. intros Hm. unfold bind. rewrite Hm. reflexivity. Qed.

Lemma bind_raise {A B} (m : M A) (k : A → M B) w e w' :
  m w = (Raise e, w') → bind m k w = (Raise e, w').
Proof. intros Hm. unfold bind. rewrite Hm. reflexivity. Qed.

Lemma get_gen_ok l g w :
  heap w !! l = Some (OGen g) → get_gen l w = (Ok g, w).
Proof. intros Hl. unfold get_gen. rewrite Hl. reflexivity. Qed.

Lemma get_eval_ok l e w :
  heap w !! l = Some (OEval e) → get_eval l w = (Ok e, w).
Proof. intros Hl. unfold get_eval. rewrite Hl. reflexivity. Qed.

Lemma get_table_ok l t w :
  heap w !! l = Some (ODataFrame t) → get_table l w = (Ok t, w).
Proof. intros Hl. unfold get_table. rewrite Hl. reflexivity. Qed.

Lemma update_gen_ok l f g w :
  heap w !! l = Some (OGen g) →
  update_gen l f w = (Ok tt, World (<[l := OGen (f g)]> (heap w)) (sent w)).
Proof. intros Hl. unfold update_gen. rewrite Hl. reflexivity. Qed.

Lemma update_eval_ok l f e w :
  heap w !! l = Some (OEval e) →
  update_eval l f w = (Ok tt, World (<[l := OEval (f e)]> (heap w)) (sent w)).
Proof. intros Hl. unfold update_eval. rewrite Hl. reflexivity. Qed.

Lemma table_cell_run df t c i w :
  heap w !! df = Some (ODataFrame t) →
  table_cell df c i w = (table_at t c i, w).
Proof.
  intros Hl. unfold table_cell. rewrite (bind_ok _ _ _ _ _ (get_table_ok _ _ _ Hl)).
  reflexivity.
Qed.

(** The store after an assignment to an attribute of the object at [l]:
    the earlier contents of [l] are overwritten. *)
Lemma heap_overwrite (h : gmap loc object) l o o' :
  <[l := o']> (<[l := o]> h) = <[l := o']> h.
Proof. apply insert_insert_eq. Qed.

(** A new object is allocated away from the objects of the store. *)
Lemma fresh_lookup (h : gmap loc object) : h !! fresh (dom h) = None.
Proof. apply not_elem_of_dom, is_fresh. Qed.

Lemma fresh_ne (h : gmap loc object) l o :
  h !! l = Some o → fresh (dom h) ≠ l.
Proof. intros Hl Heq. rewrite <- Heq, fresh_lookup in Hl. discriminate. Qed.

(** Lookups in a store built by allocations and assignments. *)
Ltac solve_lookup :=
  cbn [heap];
  repeat first
    [ rewrite lookup_insert_eq
    | rewrite lookup_insert_ne
        by first [ assumption | congruence | eauto using fresh_ne ] ];
  eauto.

(** One step of a method whose outcome is known. *)
Ltac run_step :=
  first
    [ rewrite bind_run
    | erewrite get_gen_ok by solve_lookup
    | erewrite get_eval_ok by solve_lookup
    | erewrite update_gen_ok by solve_lookup
    | erewrite update_eval_ok by solve_lookup
    | erewrite table_cell_run by solve_lookup ];
  cbn [heap sent fst snd].

Ltac run := repeat run_step; cbn [heap sent]; rewrite ?heap_overwrite.

(* ===================================================================== *)
(** * The acceptance rule *)
(* ===================================================================== *)

Lemma evaluate_run self e s w :
  heap w !! self = Some (OEval e) →
  evaluate self s w = (Ok (PyFloat.ge s (eval_threshold e)), w).
Proof.
  intros Hl. unfold evaluate. run.
  destruct (PyFloat.ge s (eval_threshold e)); reflexivity.
Qed.

(* ===================================================================== *)
(** * The extraction stage: reading the parsed completion *)
(* ===================================================================== *)

Lemma extract_tuple_run self g w entry e aspects a :
  heap w !! self = Some (OGen g) →
  getitem_str (gen_review_analysis g) "1" = Ok entry →
  getitem_str entry "named_entity" = Ok e →
  getitem_str entry "aspect" = Ok aspects →
  getitem_0 aspects = Ok a →
  extract_tuple self w =
  (Ok tt, World (<[self := OGen (with_prediction e a g)]> (heap w)) (sent w)).
Proof.
  intros Hl H1 He Has Ha. unfold extract_tuple. run.
  unfold lift. rewrite H1. run. rewrite He. run. rewrite H1. run.
  rewrite Has. run. rewrite Ha. run. reflexivity.
Qed.

(** C2. Whatever the parsed completion mapping [d], [extract_tuple] reads
    the entry of key ["1"] only: the predicted entity is its [named_entity],
    the predicted aspect the first element of its [aspect] list.  The other
    keys of [d] and the elements [rest] after the first are arbitrary and do
    not appear in the outcome; the review analysis itself is left as it
    is. *)
Theorem extract_tuple_reads_first_pair
    (self : loc) (g : gen_obj) (w : world)
    (d entry : gmap string pyval) (e a : pyval) (rest : list pyval) :
  heap w !! self = Some (OGen g) →
  gen_review_analysis g = PDict d →
  d !! "1" = Some (PDict entry) →
  entry !! "named_entity" = Some e →
  entry !! "aspect" = Some (PList (a :: rest)) →
  ∃ g',
    extract_tuple self w =
      (Ok tt, World (<[self := OGen g']> (heap w)) (sent w)) ∧
    gen_predicted_entity g' = [e] ∧
    gen_predicted_aspect g' = [a] ∧
    gen_generation g' = [e; a] ∧
    gen_review_analysis g' = PDict d.
Proof.
  intros Hl Hd H1 He Ha. exists (with_prediction e a g).
  split; [|by rewrite <- Hd].
  eapply extract_tuple_run; eauto.
  - rewrite Hd. simpl. by rewrite H1.
  - simpl. by rewrite He.
  - simpl. by rewrite Ha.
  - reflexivity.
Qed.

(** The example of the specification: the second pair and the second
    aspect are ignored, the prediction is [("food", "decent")]. *)
Lemma extract_tuple_two_pair_example :
  let g := GenObj 1%positive EmptyString [] two_pair_response [] [] [] [] [] in
  let w := World {[ 2%positive := OGen g ]} [] in
  ∃ g',
    extract_tuple 2%positive w =
      (Ok tt, World (<[2%positive := OGen g']> (heap w)) (sent w)) ∧
    gen_predicted_entity g' = [PStr "food"] ∧
    gen_predicted_aspect g' = [PStr "decent"] ∧
    gen_generation g' = [PStr "food"; PStr "decent"] ∧
    gen_review_analysis g' = two_pair_response.
Proof.
  intros g w.
  apply (extract_tuple_reads_first_pair 2%positive g w _
           {[ "named_entity" := PStr "food";
              "aspect" := PList [PStr "decent"; PStr "fresh"] ]}
           (PStr "food") (PStr "decent") [PStr "fresh"]).
  - reflexivity.
  - reflexivity.
  - reflexivity.
  - reflexivity.
  - reflexivity.
Defined.

(* ===================================================================== *)
(** * The evaluation stage *)
(* ===================================================================== *)

Section Evaluation.

Context `{Services}.

Lemma extract_cosine_score_run tv pv w :
  extract_cosine_score tv pv w = (cosine_score tv pv, w).
Proof.
  unfold extract_cosine_score, cosine_score, lift. rewrite !bind_run.
  destruct (encode tv) as [a|x]; [|reflexivity]. rewrite bind_run.
  destruct (encode pv) as [b|x]; [|reflexivity]. rewrite bind_run.
  destruct (item_0_0 (cos_sim a b)); reflexivity.
Qed.

Lemma invoke_evaluation_logic_run self e w :
  heap w !! self = Some (OEval e) →
  invoke_evaluation_logic self w =
  (Ok tt,
   World (<[self := OEval
              (EvalObj (eval_df e) (eval_model_gen_object e) (eval_threshold e)
                 (eval_entity_cosine_score e) (eval_aspect_cosine_score e)
                 (Some (PyFloat.ge (eval_entity_cosine_score e) (eval_threshold e)))
                 (Some (PyFloat.ge (eval_aspect_cosine_score e) (eval_threshold e))))]>
            (heap w)) (sent w)).
Proof.
  intros Hl. unfold invoke_evaluation_logic. run.
  rewrite (evaluate_run _ _ _ _ Hl). run.
  erewrite evaluate_run by solve_lookup. run.
  reflexivity.
Qed.

(** The outcome of the construction when [model_gen_object] is a generation
    object: the two scores are computed in turn, the first failure ends the
    construction. *)
Lemma ModelEvaluation_run df gen ts g w :
  heap w !! gen = Some (OGen g) →
  let l := fresh (dom (heap w)) in
  let e0 := eval_init df gen ts in
  ModelEvaluation df gen ts w =
  match cosine_score (gen_true_entity g) (gen_predicted_entity g) with
  | Raise x => (Raise x, World (<[l := OEval e0]> (heap w)) (sent w))
  | Ok se =>
      match cosine_score (gen_true_aspect g) (gen_predicted_aspect g) with
      | Raise x =>
          (Raise x,
           World (<[l := OEval (set_eval_entity_cosine_score se e0)]> (heap w))
             (sent w))
      | Ok sa =>
          (Ok l,
           World (<[l := OEval (eval_done df gen (eval_threshold e0) se sa)]>
                    (heap w)) (sent w))
      end
  end.
Proof.
  intros Hg l e0. pose proof (fresh_ne _ _ _ Hg) as Hne. fold l in Hne.
  unfold ModelEvaluation. rewrite bind_run. unfold alloc. fold l.
  fold (eval_init df gen ts). fold e0.
  unfold invoke_extract_cosine_score_logic. run.
  cbn [eval_model_gen_object e0 eval_init]. run.
  rewrite extract_cosine_score_run.
  destruct (cosine_score (gen_true_entity g) (gen_predicted_entity g)) as [se|x];
    [|reflexivity].
  run. cbn [eval_model_gen_object set_eval_entity_cosine_score e0 eval_init].
  run. rewrite extract_cosine_score_run.
  destruct (cosine_score (gen_true_aspect g) (gen_predicted_aspect g)) as [sa|x];
    [|reflexivity].
  run.
  erewrite invoke_evaluation_logic_run by solve_lookup.
  run. reflexivity.
Qed.

(** When [model_gen_object] is not a generation object the first attribute
    read fails. *)
Lemma ModelEvaluation_no_gen df gen ts w :
  (∀ g, heap w !! gen ≠ Some (OGen g)) →
  ModelEvaluation df gen ts w =
  (Raise AttributeError,
   World (<[fresh (dom (heap w)) := OEval (eval_init df gen ts)]> (heap w))
     (sent w)).
Proof.
  intros Hg. unfold ModelEvaluation. rewrite bind_run. unfold alloc.
  fold (eval_init df gen ts). rewrite bind_run.
  unfold invoke_extract_cosine_score_logic. run.
  cbn [eval_model_gen_object eval_init]. unfold get_gen. cbn [heap].
  destruct (decide (fresh (dom (heap w)) = gen)) as [<-|Hne].
  - rewrite lookup_insert_eq. reflexivity.
  - rewrite lookup_insert_ne by done.
    destruct (heap w !! gen) as [[t|g|e]|] eqn:Hl; try reflexivity.
    by destruct (Hg g).
Qed.

End Evaluation.

(* ===================================================================== *)
(** * The completion client *)
(* ===================================================================== *)

Section Generation.

Context `{Services}.

Lemma get_completion_from_messages_run messages model fp n temp rf w :
  let req := Request messages (default "gpt-3.5-turbo-1106" model)
               (default 0%float fp) (default 1%Z n) (default 0%float temp)
               (ResponseFormat_value (default TEXT rf)) in
  get_completion_from_messages messages model fp n temp rf w =
  (first_choice (chat_completions_create (sent w) req),
   World (heap w) (sent w ++ [req])).
Proof.
  intros req. unfold get_completion_from_messages. fold req.
  rewrite bind_run. unfold create.
  destruct (chat_completions_create (sent w) req) as [[[|c cs]]|x]; reflexivity.
Qed.

(* ===================================================================== *)
(** * The extraction stage, method by method *)
(* ===================================================================== *)

Lemma world_eta w : World (heap w) (sent w) = w.
Proof. by destruct w. Qed.

Lemma heap_same (h : gmap loc object) l o : h !! l = Some o → <[l := o]> h = h.
Proof. apply insert_id. Qed.

Lemma order_chat_messages_run self g t w :
  heap w !! self = Some (OGen g) →
  heap w !! gen_df g = Some (ODataFrame t) →
  order_chat_messages self w =
  let '(r, g', reqs) := order_outcome t (sent w) g in
  (r, World (<[self := OGen g']> (heap w)) (sent w ++ reqs)).
Proof.
  intros Hs Hd. assert (self ≠ gen_df g) as Hne by congruence.
  unfold order_chat_messages, order_outcome. run.
  destruct (table_at t "review" 0) as [cell|x].
  2:{ rewrite heap_same by done. by rewrite app_nil_r, world_eta. }
  run. cbn [gen_review set_gen_review]. run.
  cbn [gen_messages set_gen_messages]. rewrite get_completion_from_messages_run.
  cbn [from_option id heap sent].
  fold (json_request (chat_messages (review_text cell))).
  destruct (first_choice _) as [text|x]; [|reflexivity].
  run. unfold lift. destruct (literal_eval text) as [v|x]; [|reflexivity].
  run. reflexivity.
Qed.

Lemma extract_true_val_run self g t w :
  heap w !! self = Some (OGen g) →
  heap w !! gen_df g = Some (ODataFrame t) →
  extract_true_val self w =
  let '(r, g') := true_val_outcome t g in
  (r, World (<[self := OGen g']> (heap w)) (sent w)).
Proof.
  intros Hs Hd. assert (self ≠ gen_df g) as Hne by congruence.
  unfold extract_true_val, true_val_outcome. run.
  destruct (table_at t "true_entity" 0) as [e|x].
  2:{ rewrite heap_same by done. by rewrite world_eta. }
  run. cbn [gen_df set_gen_true_entity]. run.
  destruct (table_at t "true_aspect" 0) as [a|x]; [|reflexivity].
  run. reflexivity.
Qed.

Lemma extract_tuple_outcome self g w :
  heap w !! self = Some (OGen g) →
  extract_tuple self w =
  let '(r, g') := tuple_outcome g in
  (r, World (<[self := OGen g']> (heap w)) (sent w)).
Proof.
  intros Hs. unfold tuple_outcome, prediction_of.
  assert (∀ x : exn, (Raise x, w) =
            (Raise x : result unit, World (<[self := OGen g]> (heap w)) (sent w)))
    as Hsame by (intros; by rewrite heap_same, world_eta).
  destruct (getitem_str (gen_review_analysis g) "1") as [entry|x] eqn:H1.
  2:{ unfold extract_tuple. run. unfold lift. rewrite H1. apply Hsame. }
  destruct (getitem_str entry "named_entity") as [e|x] eqn:He.
  2:{ unfold extract_tuple. run. unfold lift. rewrite H1. run. rewrite He.
      apply Hsame. }
  destruct (getitem_str entry "aspect") as [aspects|x] eqn:Has.
  2:{ unfold extract_tuple. run. unfold lift. rewrite H1. run. rewrite He. run.
      rewrite H1. run. rewrite Has. apply Hsame. }
  destruct (getitem_0 aspects) as [a|x] eqn:Ha.
  2:{ unfold extract_tuple. run. unfold lift. rewrite H1. run. rewrite He. run.
      rewrite H1. run. rewrite Has. run. rewrite Ha. apply Hsame. }
  by apply extract_tuple_run with entry aspects.
Qed.

(** The construction of a generation object over the table [t]. *)
Lemma ModelEntityAspectGeneration_run df t w :
  heap w !! df = Some (ODataFrame t) →
  let l := fresh (dom (heap w)) in
  ModelEntityAspectGeneration df w =
  let '(r, g, reqs) := generation_outcome df t (sent w) in
  (returning l r, World (<[l := OGen g]> (heap w)) (sent w ++ reqs)).
Proof.
  intros Hd l. pose proof (fresh_ne _ _ _ Hd) as Hne. fold l in Hne.
  unfold ModelEntityAspectGeneration, generation_outcome.
  rewrite bind_run. unfold alloc. fold l. fold (gen_init df).
  rewrite bind_run.
  erewrite order_chat_messages_run with (g := gen_init df) (t := t)
    by solve_lookup.
  cbn [sent heap].
  destruct (order_outcome t (sent w) (gen_init df)) as [[r1 g1] reqs] eqn:H1.
  assert (gen_df g1 = df) as Hdf1.
  { revert H1. unfold order_outcome.
    repeat (case_match; try (intros [= <- <- <-]; reflexivity)). }
  rewrite heap_overwrite. destruct r1 as [[]|x]; [|reflexivity].
  rewrite bind_run.
  erewrite extract_true_val_run with (g := g1) (t := t)
    by (rewrite ?Hdf1; solve_lookup).
  cbn [sent heap].
  destruct (true_val_outcome t g1) as [r2 g2] eqn:H2.
  rewrite heap_overwrite. destruct r2 as [[]|x]; [|reflexivity].
  rewrite bind_run.
  erewrite extract_tuple_outcome with (g := g2) by solve_lookup.
  cbn [sent heap].
  destruct (tuple_outcome g2) as [r3 g3] eqn:H3.
  rewrite heap_overwrite. destruct r3 as [[]|x]; reflexivity.
Qed.

End Generation.

(* ===================================================================== *)
(** * Properties of the evaluation stage *)
(* ===================================================================== *)

Lemma item_0_0_lookup (t : tensor) (x : float) :
  item_0_0 t = Ok x ↔ ∃ row, t !! 0 = Some row ∧ row !! 0 = Some x.
Proof.
  destruct t as [|[|y row] t]; simpl; split.
  - discriminate.
  - intros (? & [=] & _).
  - discriminate.
  - intros (? & [= <-] & [=]).
  - intros [= ->]. eauto.
  - intros (? & [= <-] & [= ->]). reflexivity.
Qed.

Section EvaluationProperties.

Context `{Services}.

Lemma cosine_score_field_score tv pv s :
  cosine_score tv pv = Ok s ↔ field_score tv pv s.
Proof.
  unfold cosine_score, field_score. split.
  - destruct (encode tv) as [a|]; [|discriminate].
    destruct (encode pv) as [b|]; [|discriminate].
    intros (row & ? & ?)%item_0_0_lookup. by exists a, b, row.
  - intros (a & b & row & -> & -> & ? & ?). apply item_0_0_lookup. eauto.
Qed.

(** A successful construction: the object it returns and the store. *)
Lemma ModelEvaluation_ok_inv df gen ts w self w' :
  ModelEvaluation df gen ts w = (Ok self, w') →
  ∃ g se sa,
    heap w !! gen = Some (OGen g) ∧
    cosine_score (gen_true_entity g) (gen_predicted_entity g) = Ok se ∧
    cosine_score (gen_true_aspect g) (gen_predicted_aspect g) = Ok sa ∧
    self = fresh (dom (heap w)) ∧
    w' = World (<[self := OEval (eval_done df gen (default threshold_score_default ts) se sa)]>
                  (heap w)) (sent w).
Proof.
  intros Hrun.
  destruct (heap w !! gen) as [o|] eqn:Hg.
  2:{ rewrite ModelEvaluation_no_gen in Hrun by (intros; congruence).
      discriminate. }
  destruct o as [t|g|e];
    [ rewrite ModelEvaluation_no_gen in Hrun by (intros; congruence);
      discriminate
    | | rewrite ModelEvaluation_no_gen in Hrun by (intros; congruence);
      discriminate ].
  rewrite (ModelEvaluation_run _ _ _ g) in Hrun by done.
  destruct (cosine_score (gen_true_entity g) _) as [se|] eqn:Hse; [|discriminate].
  destruct (cosine_score (gen_true_aspect g) _) as [sa|] eqn:Hsa; [|discriminate].
  injection Hrun as <- <-. by exists g, se, sa.
Qed.

(** Whatever the outcome, the construction allocates one evaluation object
    and touches nothing else. *)
Lemma ModelEvaluation_store df gen ts w :
  ∃ e,
    (ModelEvaluation df gen ts w).2 =
      World (<[fresh (dom (heap w)) := OEval e]> (heap w)) (sent w) ∧
    eval_df e = df ∧
    eval_model_gen_object e = gen ∧
    eval_threshold e = default threshold_score_default ts.
Proof.
  destruct (heap w !! gen) as [o|] eqn:Hg.
  2:{ rewrite ModelEvaluation_no_gen by (intros; congruence). by eexists. }
  destruct o as [t|g|e];
    [ rewrite ModelEvaluation_no_gen by (intros; congruence); by eexists
    | | rewrite ModelEvaluation_no_gen by (intros; congruence); by eexists ].
  rewrite (ModelEvaluation_run _ _ _ g) by done.
  destruct (cosine_score (gen_true_entity g) _) as [se|]; [|by eexists].
  destruct (cosine_score (gen_true_aspect g) _) as [sa|]; by eexists.
Qed.

(** C1. [evaluate] on an evaluation object of threshold [t] returns [True]
    if and only if the score is greater than or equal to [t] (the
    comparison of Python floats), and returns [False] otherwise; the store
    is not changed.  The threshold of a constructed object is the one given
    to the constructor, and 0.85 when none is given. *)
#[warnings="-inexact-float"]
Theorem evaluate_iff_score_ge_threshold
    (self : loc) (e : eval_obj) (w : world) (cosine_score : float)
    (df gen : loc) (threshold_score : option float) (w0 w1 : world)
    (new : loc) :
  heap w !! self = Some (OEval e) →
  ModelEvaluation df gen threshold_score w0 = (Ok new, w1) →
  (∃ b, evaluate self cosine_score w = (Ok b, w) ∧
        (b = true ↔ (eval_threshold e <=? cosine_score)%float = true)) ∧
  (∃ e1, heap w1 !! new = Some (OEval e1) ∧
         eval_threshold e1 =
           match threshold_score with
           | Some t => t
           | None => 0.85%float
           end).
Proof.
  intros Hself Hnew. split.
  - exists (PyFloat.ge cosine_score (eval_threshold e)).
    split; [by apply evaluate_run | reflexivity].
  - apply ModelEvaluation_ok_inv in Hnew
      as (g & se & sa & _ & _ & _ & -> & ->).
    eexists. split; [apply lookup_insert_eq|]. by destruct threshold_score.
Qed.

(** C4, amended. On an object of threshold 0.0 every score greater than or
    equal to zero is accepted, and a negative score is rejected; on an
    object whose threshold is greater than 1.0 every score up to 1.0, so
    every cosine similarity, is rejected. *)
Theorem evaluate_extreme_thresholds
    (self : loc) (e : eval_obj) (w : world) (s : float) :
  heap w !! self = Some (OEval e) →
  (eval_threshold e = 0%float → (0 <=? s)%float = true →
     evaluate self s w = (Ok true, w)) ∧
  (eval_threshold e = 0%float → (s <? 0)%float = true →
     evaluate self s w = (Ok false, w)) ∧
  ((1 <? eval_threshold e)%float = true → (s <=? 1)%float = true →
     evaluate self s w = (Ok false, w)).
Proof.
  intros Hself. rewrite (evaluate_run _ _ _ _ Hself). repeat split.
  - intros -> Hs. unfold PyFloat.ge. by rewrite Hs.
  - intros -> Hs. by rewrite (PyFloatFacts.lt_not_ge s 0).
  - intros Ht Hs. by rewrite (PyFloatFacts.le_lt_not_ge s 1 (eval_threshold e)).
Qed.

(** C8. After a successful construction the entity score is the scalar at
    position (0, 0) of the similarity matrix of the embeddings of the true
    and predicted entity lists, the aspect score that of the aspect lists,
    and each keep flag is the comparison of its own score with the
    threshold.  A second construction over a generation object with the
    same entity lists stores the same entity score and flag whatever its
    aspect lists are, and conversely. *)
Theorem scores_computed_per_field
    (df gen : loc) (threshold_score : option float) (w w' : world) (self : loc)
    (g : gen_obj) :
  heap w !! gen = Some (OGen g) →
  ModelEvaluation df gen threshold_score w = (Ok self, w') →
  ∃ e,
    heap w' !! self = Some (OEval e) ∧
    field_score (gen_true_entity g) (gen_predicted_entity g)
      (eval_entity_cosine_score e) ∧
    field_score (gen_true_aspect g) (gen_predicted_aspect g)
      (eval_aspect_cosine_score e) ∧
    eval_keep_entity_prediction e =
      Some (PyFloat.ge (eval_entity_cosine_score e) (eval_threshold e)) ∧
    eval_keep_aspect_prediction e =
      Some (PyFloat.ge (eval_aspect_cosine_score e) (eval_threshold e)) ∧
    ∀ df2 gen2 g2 w2 w2' self2 e2,
      heap w2 !! gen2 = Some (OGen g2) →
      ModelEvaluation df2 gen2 threshold_score w2 = (Ok self2, w2') →
      heap w2' !! self2 = Some (OEval e2) →
      (gen_true_entity g2 = gen_true_entity g →
       gen_predicted_entity g2 = gen_predicted_entity g →
       eval_entity_cosine_score e2 = eval_entity_cosine_score e ∧
       eval_keep_entity_prediction e2 = eval_keep_entity_prediction e) ∧
      (gen_true_aspect g2 = gen_true_aspect g →
       gen_predicted_aspect g2 = gen_predicted_aspect g →
       eval_aspect_cosine_score e2 = eval_aspect_cosine_score e ∧
       eval_keep_aspect_prediction e2 = eval_keep_aspect_prediction e).
Proof.
  intros Hg Hrun.
  apply ModelEvaluation_ok_inv in Hrun
    as (g' & se & sa & Hg' & Hse & Hsa & -> & ->).
  assert (g' = g) as -> by congruence.
  eexists. split; [apply lookup_insert_eq|]. cbn.
  split; [by apply cosine_score_field_score|].
  split; [by apply cosine_score_field_score|].
  do 2 (split; [reflexivity|]).
  intros df2 gen2 g2 w2 w2' self2 e2 Hg2 Hrun2 He2.
  apply ModelEvaluation_ok_inv in Hrun2
    as (g2' & se2 & sa2 & Hg2' & Hse2 & Hsa2 & -> & ->).
  assert (g2' = g2) as -> by congruence.
  cbn in He2. rewrite lookup_insert_eq in He2. injection He2 as <-. cbn.
  split.
  - intros Ht Hp. rewrite Ht, Hp in Hse2. by assert (se2 = se) as -> by congruence.
  - intros Ht Hp. rewrite Ht, Hp in Hsa2. by assert (sa2 = sa) as -> by congruence.
Qed.

(** C10. Whatever its outcome, the construction of an evaluation object
    issues no request and changes no object of the store: it allocates the
    evaluation object at a location that was free, and that object keeps
    the references to the data frame and to the generation object and the
    threshold it was given.  In particular the data frame and the generation
    object are as they were. *)
Theorem ModelEvaluation_frame
    (df gen : loc) (threshold_score : option float) (w : world) :
  let w' := (ModelEvaluation df gen threshold_score w).2 in
  let self := fresh (dom (heap w)) in
  sent w' = sent w ∧
  heap w !! self = None ∧
  (∀ l, l ≠ self → heap w' !! l = heap w !! l) ∧
  (∀ l o, heap w !! l = Some o → heap w' !! l = Some o) ∧
  ∃ e, heap w' !! self = Some (OEval e) ∧
       eval_df e = df ∧
       eval_model_gen_object e = gen ∧
       eval_threshold e = default threshold_score_default threshold_score.
Proof.
  intros w' self.
  destruct (ModelEvaluation_store df gen threshold_score w)
    as (e & Hw' & Hdf & Hgen & Ht).
  fold w' self in Hw'. rewrite Hw'. cbn.
  split; [reflexivity|]. split; [apply fresh_lookup|].
  split; [intros l Hl; by rewrite lookup_insert_ne|].
  split.
  - intros l o Hl. rewrite lookup_insert_ne; [done|].
    by apply fresh_ne with o.
  - exists e. by rewrite lookup_insert_eq.
Qed.

End EvaluationProperties.

(* ===================================================================== *)
(** * The evaluation stage on the end-to-end scenario *)
(* ===================================================================== *)

#[warnings="-inexact-float"]
Lemma evaluate_iff_score_ge_threshold_scenario :
  let e := EvalObj 1%positive 2%positive 0.5%float 0%float 0%float None None in
  heap (eval_world 0.5%float) !! 3%positive = Some (OEval e) ∧
  @ModelEvaluation scenario_services 1%positive 2%positive None generated_world
    = (Ok 3%positive, evaluated_world) ∧
  (∃ b, evaluate 3%positive 0.75%float (eval_world 0.5%float)
          = (Ok b, eval_world 0.5%float) ∧
        (b = true ↔ (eval_threshold e <=? 0.75)%float = true)) ∧
  (∃ e1, heap evaluated_world !! 3%positive = Some (OEval e1) ∧
         eval_threshold e1 = 0.85%float).
Proof.
  intros e.
  assert (heap (eval_world 0.5%float) !! 3%positive = Some (OEval e)) as H1
    by reflexivity.
  assert (@ModelEvaluation scenario_services 1%positive 2%positive None
            generated_world = (Ok 3%positive, evaluated_world)) as H2
    by (vm_compute; reflexivity).
  split; [exact H1|]. split; [exact H2|].
  exact (@evaluate_iff_score_ge_threshold scenario_services
           3%positive e (eval_world 0.5%float) 0.75%float
           1%positive 2%positive None generated_world evaluated_world
           3%positive H1 H2).
Defined.

(** C4, as stated, fails: with the threshold 0.0 the score -0.5, a cosine
    similarity, is rejected. *)
Lemma zero_threshold_rejects_negative_score :
  heap (eval_world 0%float) !! 3%positive
    = Some (OEval (EvalObj 1%positive 2%positive 0%float 0%float 0%float
                     None None)) ∧
  (-1 <=? -0.5)%float = true ∧
  (-0.5 <=? 1)%float = true ∧
  evaluate 3%positive (-0.5)%float (eval_world 0%float)
    = (Ok false, eval_world 0%float).
Proof. repeat split. Qed.

Lemma evaluate_extreme_thresholds_scenario :
  evaluate 3%positive 0.25%float (eval_world 0%float)
    = (Ok true, eval_world 0%float) ∧
  evaluate 3%positive (-0.5)%float (eval_world 0%float)
    = (Ok false, eval_world 0%float) ∧
  evaluate 3%positive 1%float (eval_world 1.5%float)
    = (Ok false, eval_world 1.5%float).
Proof.
  pose (e0 := EvalObj 1%positive 2%positive 0%float 0%float 0%float None None).
  pose (e1 := EvalObj 1%positive 2%positive 1.5%float 0%float 0%float None None).
  assert (heap (eval_world 0%float) !! 3%positive = Some (OEval e0)) as H0
    by reflexivity.
  assert (heap (eval_world 1.5%float) !! 3%positive = Some (OEval e1)) as H1
    by reflexivity.
  split; [|split].
  - apply (proj1 (evaluate_extreme_thresholds 3%positive e0 _ 0.25%float H0));
      reflexivity.
  - apply (proj1 (proj2
      (evaluate_extreme_thresholds 3%positive e0 _ (-0.5)%float H0)));
      reflexivity.
  - apply (proj2 (proj2
      (evaluate_extreme_thresholds 3%positive e1 _ 1%float H1)));
      reflexivity.
Defined.

Lemma scores_computed_per_field_scenario :
  ∃ e e2,
    heap evaluated_world !! 3%positive = Some (OEval e) ∧
    heap other_evaluated_world !! 3%positive = Some (OEval e2) ∧
    eval_entity_cosine_score e = 1%float ∧
    eval_aspect_cosine_score e = 1%float ∧
    eval_keep_entity_prediction e = Some true ∧
    eval_keep_aspect_prediction e = Some true ∧
    eval_aspect_cosine_score e2 = 0.5%float ∧
    eval_keep_aspect_prediction e2 = Some false ∧
    eval_entity_cosine_score e2 = eval_entity_cosine_score e ∧
    eval_keep_entity_prediction e2 = eval_keep_entity_prediction e.
Proof.
  assert (heap generated_world !! 2%positive = Some (OGen scenario_gen)) as H1
    by (vm_compute; reflexivity).
  assert (@ModelEvaluation scenario_services 1%positive 2%positive None
            generated_world = (Ok 3%positive, evaluated_world)) as H2
    by (vm_compute; reflexivity).
  assert (heap other_generated_world !! 2%positive = Some (OGen other_gen))
    as H3 by (vm_compute; reflexivity).
  assert (@ModelEvaluation scenario_services 1%positive 2%positive None
            other_generated_world = (Ok 3%positive, other_evaluated_world))
    as H4 by (vm_compute; reflexivity).
  destruct (@scores_computed_per_field scenario_services
              1%positive 2%positive None generated_world evaluated_world
              3%positive scenario_gen H1 H2)
    as (e & He & _ & _ & _ & _ & Hind).
  assert (∃ e2, heap other_evaluated_world !! 3%positive = Some (OEval e2) ∧
                eval_aspect_cosine_score e2 = 0.5%float ∧
                eval_keep_aspect_prediction e2 = Some false)
    as (e2 & He2 & Hsa2 & Hka2)
    by (eexists; split; [vm_compute; reflexivity | split; reflexivity]).
  destruct (Hind 1%positive 2%positive other_gen other_generated_world
              other_evaluated_world 3%positive e2 H3 H4 He2)
    as [Hent _].
  destruct (Hent eq_refl eq_refl) as [Hs Hk].
  exists e, e2.
  assert (heap evaluated_world !! 3%positive
          = Some (OEval (eval_done 1%positive 2%positive threshold_score_default
                           1%float 1%float))) as He'
    by (vm_compute; reflexivity).
  assert (e = eval_done 1%positive 2%positive threshold_score_default
                1%float 1%float) as Hee.
  { pose proof (eq_trans (eq_sym He) He') as Heq. by injection Heq. }
  repeat split; try assumption; rewrite Hee; reflexivity.
Defined.

(* ===================================================================== *)
(** * Properties of the extraction stage *)
(* ===================================================================== *)

Section GenerationProperties.

Context `{Services}.

(** The steps of a successful construction. *)
Lemma generation_outcome_ok_inv df t hist g reqs :
  generation_outcome df t hist = (Ok tt, g, reqs) →
  ∃ cell text v e a pe pa,
    table_at t "review" 0 = Ok cell ∧
    first_choice (chat_completions_create hist
                    (json_request (chat_messages (review_text cell)))) = Ok text ∧
    literal_eval text = Ok v ∧
    table_at t "true_entity" 0 = Ok e ∧
    table_at t "true_aspect" 0 = Ok a ∧
    prediction_of v = Ok (pe, pa) ∧
    g = GenObj df (review_text cell) (chat_messages (review_text cell)) v
          [PStr e] [PStr a] [pe] [pa] [pe; pa] ∧
    reqs = [json_request (chat_messages (review_text cell))].
Proof.
  unfold generation_outcome, order_outcome, true_val_outcome, tuple_outcome.
  destruct (table_at t "review" 0) as [cell|]; [|discriminate].
  destruct (first_choice _) as [text|] eqn:Htext; [|discriminate].
  destruct (literal_eval text) as [v|] eqn:Hv; [|discriminate].
  destruct (table_at t "true_entity" 0) as [e|]; [|discriminate].
  destruct (table_at t "true_aspect" 0) as [a|]; [|discriminate].
  cbn [gen_review_analysis set_gen_true_aspect set_gen_true_entity
         set_gen_review_analysis].
  destruct (prediction_of v) as [[pe pa]|] eqn:Hp; [|discriminate].
  intros [= <- <-]. by exists cell, text, v, e, a, pe, pa.
Qed.

(** Without a data frame at [df] the first read fails. *)
Lemma ModelEntityAspectGeneration_no_table df w :
  (∀ t, heap w !! df ≠ Some (ODataFrame t)) →
  ModelEntityAspectGeneration df w =
  (Raise AttributeError,
   World (<[fresh (dom (heap w)) := OGen (gen_init df)]> (heap w)) (sent w)).
Proof.
  intros Hd. unfold ModelEntityAspectGeneration. rewrite bind_run.
  unfold alloc. fold (gen_init df). rewrite bind_run.
  unfold order_chat_messages. run. cbn [gen_df gen_init].
  unfold table_cell. rewrite bind_run. unfold get_table. cbn [heap].
  destruct (decide (fresh (dom (heap w)) = df)) as [<-|Hne].
  - rewrite lookup_insert_eq. reflexivity.
  - rewrite lookup_insert_ne by done.
    destruct (heap w !! df) as [[t|g|e]|] eqn:Hl; try reflexivity.
    by destruct (Hd t).
Qed.

Lemma ModelEntityAspectGeneration_ok_inv df w l w' :
  ModelEntityAspectGeneration df w = (Ok l, w') →
  ∃ t g reqs,
    heap w !! df = Some (ODataFrame t) ∧
    generation_outcome df t (sent w) = (Ok tt, g, reqs) ∧
    l = fresh (dom (heap w)) ∧
    w' = World (<[l := OGen g]> (heap w)) (sent w ++ reqs).
Proof.
  intros Hrun.
  destruct (heap w !! df) as [o|] eqn:Hd.
  2:{ rewrite ModelEntityAspectGeneration_no_table in Hrun
        by (intros; congruence). discriminate. }
  destruct o as [t|g|e];
    [ | rewrite ModelEntityAspectGeneration_no_table in Hrun
          by (intros; congruence); discriminate
      | rewrite ModelEntityAspectGeneration_no_table in Hrun
          by (intros; congruence); discriminate ].
  rewrite (ModelEntityAspectGeneration_run _ t) in Hrun by done.
  destruct (generation_outcome df t (sent w)) as [[r g] reqs] eqn:Hout.
  destruct r as [[]|]; [|discriminate].
  injection Hrun as <- <-. by exists t, g, reqs.
Qed.


(** C6. [get_completion_from_messages] issues one request, made of its
    arguments, and returns the content of the first choice of the answer.
    The request of the extraction stage asks for a JSON object, with the
    defaults of the client for the rest: temperature 0, frequency penalty
    0, one sample. *)
Theorem completion_client_single_request
    (messages : list message) (model : string) (frequency_penalty : float)
    (n : Z) (temperature : float) (response_format : ResponseFormat)
    (w0 : world) (c : message) (cs : list message)
    (self : loc) (g : gen_obj) (t : table) (cell : string) (w : world) :
  let req := Request messages model frequency_penalty n temperature
               (ResponseFormat_value response_format) in
  chat_completions_create (sent w0) req = Ok (Completion (c :: cs)) →
  heap w !! self = Some (OGen g) →
  heap w !! gen_df g = Some (ODataFrame t) →
  table_at t "review" 0 = Ok cell →
  get_completion_from_messages messages (Some model) (Some frequency_penalty)
    (Some n) (Some temperature) (Some response_format) w0
  = (Ok (content c), World (heap w0) (sent w0 ++ [req])) ∧
  sent (order_chat_messages self w).2 =
    sent w ++ [ Request (chat_messages (review_text cell))
                  "gpt-3.5-turbo-1106" 0%float 1%Z 0%float
                  {[ "type" := "json_object" ]} ].
Proof.
  intros req Hc Hs Hd Hcell. split.
  - subst req. rewrite get_completion_from_messages_run.
    cbn [from_option id]. by rewrite Hc.
  - rewrite (order_chat_messages_run _ g t) by done.
    unfold order_outcome. rewrite Hcell.
    destruct (first_choice _) as [text|]; [destruct (literal_eval text)|];
      reflexivity.
Qed.

End GenerationProperties.

(* ===================================================================== *)
(** * The invariant of a generation object *)
(* ===================================================================== *)

Section Invariant.

Context `{Services}.

Variable l : loc.

Local Abbreviation I := (gen_invariant_at l).

Lemma preserves_bind {A B} (m : M A) (k : A → M B) :
  preserves I m → (∀ a, preserves I (k a)) → preserves I (bind m k).
Proof.
  intros Hm Hk w Hw. unfold bind. specialize (Hm w Hw).
  destruct (m w) as [[a|x] w1]; [by apply Hk | exact Hm].
Qed.

Lemma preserves_read_only {A} (m : M A) :
  (∀ w, (m w).2 = w) → preserves I m.
Proof. intros Hm w Hw. by rewrite Hm. Qed.

Lemma preserves_ret {A} (a : A) : preserves I (ret a).
Proof. by apply preserves_read_only. Qed.

Lemma preserves_raise {A} (x : exn) : preserves I (raise (A := A) x).
Proof. by apply preserves_read_only. Qed.

Lemma preserves_lift {A} (r : result A) : preserves I (lift r).
Proof. by apply preserves_read_only. Qed.

Lemma preserves_get_gen s : preserves I (get_gen s).
Proof.
  apply preserves_read_only. intros w. unfold get_gen.
  by destruct (heap w !! s) as [[]|].
Qed.

Lemma preserves_get_eval s : preserves I (get_eval s).
Proof.
  apply preserves_read_only. intros w. unfold get_eval.
  by destruct (heap w !! s) as [[]|].
Qed.

Lemma preserves_get_table s : preserves I (get_table s).
Proof.
  apply preserves_read_only. intros w. unfold get_table.
  by destruct (heap w !! s) as [[]|].
Qed.

Lemma preserves_table_cell df c i : preserves I (table_cell df c i).
Proof.
  apply preserves_bind; [apply preserves_get_table | intros; apply preserves_lift].
Qed.

Lemma preserves_create req : preserves I (create req).
Proof. intros w Hw. exact Hw. Qed.

Lemma preserves_alloc o : preserves I (alloc o).
Proof.
  intros w (g & Hg & Hinv). exists g. split; [|done]. cbn [alloc snd heap].
  rewrite lookup_insert_ne; [done | by apply fresh_ne with (OGen g)].
Qed.

(** An assignment keeps the invariant when the new attributes satisfy it. *)
Lemma preserves_update_gen s f :
  (∀ g, gen_invariant g → gen_invariant (f g)) → preserves I (update_gen s f).
Proof.
  intros Hf w (g & Hg & Hinv). unfold update_gen.
  destruct (heap w !! s) as [[t|g'|e]|] eqn:Hs; try by exists g.
  unfold gen_invariant_at. cbn [snd heap].
  destruct (decide (s = l)) as [->|Hne].
  - exists (f g'). rewrite lookup_insert_eq. split; [done|].
    apply Hf. by assert (g' = g) as -> by congruence.
  - exists g. by rewrite lookup_insert_ne.
Qed.

Lemma preserves_update_eval s f : preserves I (update_eval s f).
Proof.
  intros w (g & Hg & Hinv). unfold update_eval.
  destruct (heap w !! s) as [[t|g'|e]|] eqn:Hs; try by exists g.
  unfold gen_invariant_at. cbn [snd heap].
  exists g. rewrite lookup_insert_ne; [done | congruence].
Qed.

Lemma preserves_get_completion_from_messages messages model fp n temp rf :
  preserves I (get_completion_from_messages messages model fp n temp rf).
Proof.
  intros w Hw. by rewrite get_completion_from_messages_run.
Qed.

Lemma preserves_load_data path : preserves I (load_data path).
Proof.
  apply preserves_bind; [apply preserves_lift | intros; apply preserves_alloc].
Qed.

Create HintDb preserves.

#[local] Hint Resolve preserves_ret preserves_raise preserves_lift preserves_get_gen
  preserves_get_eval preserves_get_table preserves_table_cell preserves_create
  preserves_alloc preserves_update_eval
  preserves_get_completion_from_messages preserves_load_data : preserves.

Ltac preserves_steps :=
  repeat first
    [ solve [eauto with preserves]
    | apply preserves_update_gen; intros ? (te & ta & pe & pa & ?);
        by exists te, ta, pe, pa
    | apply preserves_bind; [|intros] ].

Lemma preserves_order_chat_messages s : preserves I (order_chat_messages s).
Proof. unfold order_chat_messages. preserves_steps. Qed.

#[local] Hint Resolve preserves_order_chat_messages : preserves.

Lemma preserves_extract_true_val s : preserves I (extract_true_val s).
Proof.
  unfold extract_true_val. preserves_steps.
  - apply preserves_update_gen. intros g (te & ta & pe & pa & ? & ? & ? & ? & ?).
    by eexists _, ta, pe, pa.
  - apply preserves_update_gen. intros g (te & ta & pe & pa & ? & ? & ? & ? & ?).
    by eexists te, _, pe, pa.
Qed.

#[local] Hint Resolve preserves_extract_true_val : preserves.

(** [extract_tuple] breaks the invariant between its assignments and
    restores it with the last one; no step in between can fail. *)
Lemma preserves_extract_tuple s : preserves I (extract_tuple s).
Proof.
  intros w (g & Hg & Hinv).
  destruct (heap w !! s) as [o|] eqn:Hs.
  2:{ unfold extract_tuple, bind, get_gen. rewrite Hs. by exists g. }
  destruct o as [t|g'|e];
    try (unfold extract_tuple, bind, get_gen; rewrite Hs; by exists g).
  rewrite (extract_tuple_outcome _ g') by done.
  unfold tuple_outcome.
  destruct (decide (s = l)) as [->|Hne].
  - assert (g' = g) as -> by congruence.
    destruct Hinv as (te & ta & pe & pa & Hte & Hta & Hpe & Hpa & Hgen).
    destruct (prediction_of _) as [[e a]|x]; unfold gen_invariant_at;
      cbn [snd heap]; eexists; (split; [apply lookup_insert_eq|]).
    + by exists te, ta, e, a.
    + by exists te, ta, pe, pa.
  - destruct (prediction_of _) as [[e a]|x]; unfold gen_invariant_at;
      cbn [snd heap]; exists g; by rewrite lookup_insert_ne.
Qed.

#[local] Hint Resolve preserves_extract_tuple : preserves.

Lemma preserves_ModelEntityAspectGeneration df :
  preserves I (ModelEntityAspectGeneration df).
Proof.
  unfold ModelEntityAspectGeneration.
  preserves_steps.
Qed.

#[local] Hint Resolve preserves_ModelEntityAspectGeneration : preserves.

Lemma preserves_extract_cosine_score tv pv :
  preserves I (extract_cosine_score tv pv).
Proof. apply preserves_read_only. intros w. by rewrite extract_cosine_score_run. Qed.

#[local] Hint Resolve preserves_extract_cosine_score : preserves.

Lemma preserves_invoke_extract_cosine_score_logic s :
  preserves I (invoke_extract_cosine_score_logic s).
Proof.
  unfold invoke_extract_cosine_score_logic.
  preserves_steps.
Qed.

#[local] Hint Resolve preserves_invoke_extract_cosine_score_logic : preserves.

Lemma preserves_evaluate s c : preserves I (evaluate s c).
Proof.
  unfold evaluate. apply preserves_bind; [eauto with preserves|].
  intros e. destruct (PyFloat.ge c (eval_threshold e)); eauto with preserves.
Qed.

#[local] Hint Resolve preserves_evaluate : preserves.

Lemma preserves_invoke_evaluation_logic s :
  preserves I (invoke_evaluation_logic s).
Proof.
  unfold invoke_evaluation_logic.
  preserves_steps.
Qed.

#[local] Hint Resolve preserves_invoke_evaluation_logic : preserves.

Lemma preserves_ModelEvaluation df gen ts : preserves I (ModelEvaluation df gen ts).
Proof.
  unfold ModelEvaluation.
  preserves_steps.
Qed.

#[local] Hint Resolve preserves_ModelEvaluation : preserves.

Lemma preserves_flow : preserves I flow.
Proof.
  unfold flow.
  preserves_steps.
Qed.

Lemma exec_invariant op w : I w → I (exec op w).
Proof.
  destruct op; cbn [exec].
  - apply preserves_get_completion_from_messages.
  - apply preserves_load_data.
  - apply preserves_order_chat_messages.
  - apply preserves_extract_true_val.
  - apply preserves_extract_tuple.
  - apply preserves_ModelEntityAspectGeneration.
  - apply preserves_extract_cosine_score.
  - apply preserves_invoke_extract_cosine_score_logic.
  - apply preserves_evaluate.
  - apply preserves_invoke_evaluation_logic.
  - apply preserves_ModelEvaluation.
  - apply preserves_flow.
Qed.

Lemma exec_all_invariant ops w : I w → I (exec_all ops w).
Proof.
  revert w. induction ops as [|op ops IH]; intros w Hw; [exact Hw|].
  cbn. apply IH. by apply exec_invariant.
Qed.

End Invariant.

(* ===================================================================== *)
(** * The pipeline as a whole *)
(* ===================================================================== *)

Section PipelineProperties.

Context `{Services}.

(** C9. A constructed generation object holds one true entity, one true
    aspect, one predicted entity and one predicted aspect, and its
    generation tuple is the pair of the two predictions; this stays so
    after any sequence of operations of the repository, on this object or
    on others, whether they return or raise. *)
Theorem generation_invariant
    (df : loc) (w w' : world) (l : loc) (ops : list operation) :
  ModelEntityAspectGeneration df w = (Ok l, w') →
  (∃ g te ta pe pa,
     heap w' !! l = Some (OGen g) ∧
     gen_true_entity g = [te] ∧
     gen_true_aspect g = [ta] ∧
     gen_predicted_entity g = [pe] ∧
     gen_predicted_aspect g = [pa] ∧
     gen_generation g = [pe; pa]) ∧
  gen_invariant_at l (exec_all ops w').
Proof.
  intros Hrun.
  apply ModelEntityAspectGeneration_ok_inv in Hrun
    as (t & g & reqs & _ & Hout & -> & ->).
  apply generation_outcome_ok_inv in Hout
    as (cell & text & v & e & a & pe & pa & _ & _ & _ & _ & _ & _ & -> & _).
  assert (∀ h s, gen_invariant_at (fresh (dom (heap w)))
            (World (<[fresh (dom (heap w)) :=
                        OGen (GenObj df (review_text cell)
                                (chat_messages (review_text cell)) v
                                [PStr e] [PStr a] [pe] [pa] [pe; pa])]> h) s))
    as Hinv.
  { intros h s. eexists. split; [apply lookup_insert_eq|].
    by exists (PStr e), (PStr a), pe, pa. }
  split.
  - eexists _, (PStr e), (PStr a), pe, pa.
    split; [apply lookup_insert_eq|]. done.
  - apply exec_all_invariant, Hinv.
Qed.

(** The run of [flow] once the CSV file is read. *)
Lemma flow_run t w :
  read_csv "sample_review.csv" = Ok t →
  let df := fresh (dom (heap w)) in
  let h1 := <[df := ODataFrame t]> (heap w) in
  let gen := fresh (dom h1) in
  flow w =
  let '(r, g, reqs) := generation_outcome df t (sent w) in
  let w2 := World (<[gen := OGen g]> h1) (sent w ++ reqs) in
  match r with
  | Ok _ => ModelEvaluation df gen None w2
  | Raise x => (Raise x, w2)
  end.
Proof.
  intros Hcsv df h1 gen. unfold flow. rewrite bind_run.
  unfold load_data. rewrite bind_run. unfold lift at 1. rewrite Hcsv.
  unfold alloc at 1. fold df. fold h1.
  rewrite bind_run.
  rewrite (ModelEntityAspectGeneration_run df t)
    by (cbn [heap]; apply lookup_insert_eq).
  cbn [heap sent]. fold gen.
  destruct (generation_outcome df t (sent w)) as [[r g] reqs].
  destruct r as [[]|x]; [|reflexivity]. cbn [returning].
  rewrite bind_run.
  destruct (ModelEvaluation df gen None _) as [[ev|x] w3]; reflexivity.
Qed.

Lemma prediction_of_not_mapping (v : pyval) :
  not_mapping v → prediction_of v = Raise TypeError.
Proof. by destruct v. Qed.

Lemma prediction_of_missing_key (d : gmap string pyval) :
  d !! "1" = None → prediction_of (PDict d) = Raise KeyError.
Proof. intros Hkey. unfold prediction_of, getitem_str. by rewrite Hkey. Qed.

Lemma prediction_of_empty_aspect (d entry : gmap string pyval) (e : pyval) :
  d !! "1" = Some (PDict entry) →
  entry !! "named_entity" = Some e →
  entry !! "aspect" = Some (PList []) →
  prediction_of (PDict d) = Raise IndexError.
Proof.
  intros Hkey He Ha. unfold prediction_of, getitem_str.
  by rewrite Hkey, He, Ha.
Qed.

(** C3. When the review is read and the endpoint answers, the
    construction of the generation object fails in each case of
    [extraction_failure]: with the exception of [literal_eval] when the
    completion is not a valid literal, with [TypeError] when the literal is
    not a mapping, with [KeyError] when the mapping lacks the key ["1"],
    with [IndexError] when the aspect list of the entry of key ["1"] is
    empty.  The object under construction holds no prediction, and [flow],
    which called the constructor, fails with the same exception. *)
Theorem extraction_failure_propagates
    (df : loc) (t : table) (cell e a : string) (c : message)
    (cs : list message) (w : world) (x : exn) :
  heap w !! df = Some (ODataFrame t) →
  table_at t "review" 0 = Ok cell →
  table_at t "true_entity" 0 = Ok e →
  table_at t "true_aspect" 0 = Ok a →
  chat_completions_create (sent w)
    (json_request (chat_messages (review_text cell)))
    = Ok (Completion (c :: cs)) →
  extraction_failure (literal_eval (content c)) x →
  (ModelEntityAspectGeneration df w).1 = Raise x ∧
  no_prediction (ModelEntityAspectGeneration df w).2 (fresh (dom (heap w))) ∧
  ∀ w0, load_data "sample_review.csv" w0 = (Ok df, w) →
        (flow w0).1 = Raise x.
Proof.
  intros Hd Hcell He Ha Hc Hfail.
  assert (∃ g, ModelEntityAspectGeneration df w =
               (Raise x, World (<[fresh (dom (heap w)) := OGen g]> (heap w))
                           (sent w ++ [json_request
                                         (chat_messages (review_text cell))])) ∧
               gen_predicted_entity g = [] ∧
               gen_predicted_aspect g = [] ∧
               gen_generation g = []) as (g & Hrun & Hpe & Hpa & Hgen).
  { rewrite (ModelEntityAspectGeneration_run df t) by done.
    unfold generation_outcome, order_outcome. rewrite Hcell, Hc.
    cbn [first_choice].
    remember (literal_eval (content c)) as parsed eqn:Hparsed.
    destruct Hfail as [x|v Hv|d Hkey|d entry ne Hkey Hne Hasp].
    - by eexists.
    - unfold true_val_outcome. rewrite He, Ha. unfold tuple_outcome.
      cbn [gen_review_analysis set_gen_true_aspect set_gen_true_entity
             set_gen_review_analysis].
      rewrite prediction_of_not_mapping by done. by eexists.
    - unfold true_val_outcome. rewrite He, Ha. unfold tuple_outcome.
      cbn [gen_review_analysis set_gen_true_aspect set_gen_true_entity
             set_gen_review_analysis].
      rewrite prediction_of_missing_key by done. by eexists.
    - unfold true_val_outcome. rewrite He, Ha. unfold tuple_outcome.
      cbn [gen_review_analysis set_gen_true_aspect set_gen_true_entity
             set_gen_review_analysis].
      rewrite (prediction_of_empty_aspect d entry ne) by done. by eexists. }
  rewrite Hrun. split; [reflexivity|]. split.
  - exists g. cbn [snd heap]. by rewrite lookup_insert_eq.
  - intros w0 Hload. unfold flow. rewrite bind_run, Hload, bind_run, Hrun.
    reflexivity.
Qed.

End PipelineProperties.

Lemma row_0_generation_outcome (S : Services) df t1 t2 hist :
  row_0 t1 = row_0 t2 →
  @generation_outcome S df t1 hist = @generation_outcome S df t2 hist.
Proof.
  unfold row_0. intros [= Hr He Ha].
  unfold generation_outcome, order_outcome, true_val_outcome.
  by rewrite Hr, He, Ha.
Qed.

(** C7. Once the CSV file is read into a table, [flow] uses row 0 only.
    When it succeeds, the review of the generation object is the review of
    row 0 on a line of its own, the request sent ends with the user message
    that holds it, after the five fixed messages, and the true entity and
    the true aspect are the one-element lists of the values of row 0.
    Whatever the
    outcome, over any other table with the same row 0 it returns or raises
    the same, sends the same requests, and leaves the same objects, the
    table apart. *)
Theorem flow_reads_row_0_only
    (S : Services) (t : table) (w : world) :
  @read_csv S "sample_review.csv" = Ok t →
  (∀ ev w', @flow S w = (Ok ev, w') →
     ∃ r0 e0 a0 e g,
       table_at t "review" 0 = Ok r0 ∧
       table_at t "true_entity" 0 = Ok e0 ∧
       table_at t "true_aspect" 0 = Ok a0 ∧
       let review := nl +:+ "        " +:+ r0 +:+ nl +:+ "        " in
       let transcript :=
         [ Message "system" system_prompt;
           Message "user" initial_user_prompt;
           Message "assistant" assistant_res_1;
           Message "user" user_clarification_prompt;
           Message "assistant" assistant_res_2;
           Message "user" review ] in
       heap w' !! ev = Some (OEval e) ∧
       heap w' !! eval_model_gen_object e = Some (OGen g) ∧
       gen_review g = review ∧
       gen_messages g = transcript ∧
       sent w' = sent w ++
                 [ Request transcript "gpt-3.5-turbo-1106" 0%float 1%Z 0%float
                     {[ "type" := "json_object" ]} ] ∧
       gen_true_entity g = [PStr e0] ∧
       gen_true_aspect g = [PStr a0]) ∧
  (∀ t2, row_0 t2 = row_0 t →
     let S2 := with_read_csv S (λ _, Ok t2) in
     (@flow S2 w).1 = (@flow S w).1 ∧
     sent (@flow S2 w).2 = sent (@flow S w).2 ∧
     ∀ l, l ≠ fresh (dom (heap w)) →
          heap (@flow S2 w).2 !! l = heap (@flow S w).2 !! l).
Proof.
  intros Hcsv. split.
  - intros ev w' Hflow. rewrite (flow_run t) in Hflow by done.
    destruct (generation_outcome _ t (sent w)) as [[r g] reqs] eqn:Hout.
    destruct r as [[]|]; [|discriminate].
    apply generation_outcome_ok_inv in Hout
      as (r0 & text & v & e0 & a0 & pe & pa & Hr & _ & _ & He & Ha & _ & -> & ->).
    apply ModelEvaluation_ok_inv in Hflow
      as (g' & se & sa & Hg & _ & _ & -> & ->).
    cbn [heap sent] in *. rewrite lookup_insert_eq in Hg. injection Hg as <-.
    eexists r0, e0, a0, _, _.
    do 3 (split; [done|]). cbv zeta.
    split; [apply lookup_insert_eq|]. cbn [eval_model_gen_object eval_done].
    split.
    { rewrite lookup_insert_ne; [apply lookup_insert_eq|].
      apply fresh_ne with (OGen
        (GenObj (fresh (dom (heap w))) (review_text r0)
           (chat_messages (review_text r0)) v [PStr e0] [PStr a0] [pe] [pa]
           [pe; pa])).
      apply lookup_insert_eq. }
    repeat split.
  - intros t2 Hrow S2.
    rewrite (@flow_run S t) by done.
    rewrite (@flow_run S2 t2) by done.
    change (@generation_outcome S2) with (@generation_outcome S).
    rewrite (row_0_generation_outcome S _ t2 t) by done.
    destruct (generation_outcome _ t (sent w)) as [[r g] reqs] eqn:Hout.
    set (df := fresh (dom (heap w))).
    assert (dom (<[df := ODataFrame t2]> (heap w))
            = dom (<[df := ODataFrame t]> (heap w))) as Hdom
      by (by rewrite !dom_insert_L).
    rewrite Hdom. set (gen := fresh (dom (<[df := ODataFrame t]> (heap w)))).
    assert (∀ l, l ≠ df →
              <[gen := OGen g]> (<[df := ODataFrame t2]> (heap w)) !! l
              = <[gen := OGen g]> (<[df := ODataFrame t]> (heap w)) !! l)
      as Hoff.
    { intros l Hl. destruct (decide (l = gen)) as [->|Hne].
      - by rewrite !lookup_insert_eq.
      - rewrite !(lookup_insert_ne _ gen) by done.
        by rewrite !(lookup_insert_ne _ df). }
    destruct r as [[]|x]; [|by repeat split].
    assert (gen ≠ df) as Hgd.
    { apply fresh_ne with (ODataFrame t). apply lookup_insert_eq. }
    assert (dom (<[gen := OGen g]> (<[df := ODataFrame t2]> (heap w)))
            = dom (<[gen := OGen g]> (<[df := ODataFrame t]> (heap w))))
      as Hdom2 by (by rewrite !dom_insert_L).
    rewrite (@ModelEvaluation_run S2 _ _ _ g)
      by (cbn [heap]; apply lookup_insert_eq).
    rewrite (@ModelEvaluation_run S _ _ _ g)
      by (cbn [heap]; apply lookup_insert_eq).
    cbn [heap sent]. rewrite Hdom2.
    change (@cosine_score S2) with (@cosine_score S).
    set (ev := fresh (dom (<[gen := OGen g]> (<[df := ODataFrame t]> (heap w))))).
    assert (∀ o l, l ≠ df →
              <[ev := o]> (<[gen := OGen g]> (<[df := ODataFrame t2]> (heap w))) !! l
              = <[ev := o]> (<[gen := OGen g]> (<[df := ODataFrame t]> (heap w))) !! l)
      as Hoff2.
    { intros o l Hl. destruct (decide (l = ev)) as [->|Hne].
      - by rewrite !lookup_insert_eq.
      - rewrite !(lookup_insert_ne _ ev) by done. by apply Hoff. }
    destruct (cosine_score (gen_true_entity g) _) as [se|];
      [destruct (cosine_score (gen_true_aspect g) _) as [sa|]|];
      cbn [fst snd heap sent]; repeat split; try done; apply Hoff2.
Qed.

(* ===================================================================== *)
(** * The extraction stage and the pipeline on the end-to-end scenario *)
(* ===================================================================== *)


Lemma completion_client_single_request_scenario :
  let req := Request [Message "user" "Hello"] "gpt-4" 0.5%float 2%Z 0.75%float
               {[ "type" := "text" ]} in
  @get_completion_from_messages scenario_services [Message "user" "Hello"]
    (Some "gpt-4") (Some 0.5%float) (Some 2%Z) (Some 0.75%float) (Some TEXT)
    sample_world
  = (Ok one_pair_text, World (heap sample_world) (sent sample_world ++ [req])) ∧
  sent (@order_chat_messages scenario_services 2%positive constructing_world).2 =
    sent constructing_world ++
    [ Request (chat_messages (review_text "The food is decent"))
        "gpt-3.5-turbo-1106" 0%float 1%Z 0%float
        {[ "type" := "json_object" ]} ].
Proof.
  exact (@completion_client_single_request scenario_services
           [Message "user" "Hello"] "gpt-4" 0.5%float 2%Z 0.75%float TEXT
           sample_world (Message "assistant" one_pair_text) []
           2%positive (gen_init 1%positive) sample_table "The food is decent"
           constructing_world eq_refl eq_refl eq_refl eq_refl).
Defined.

Lemma extraction_failure_propagates_scenario :
  ((@ModelEntityAspectGeneration malformed_services 1%positive sample_world).1
     = Raise (ParseError "unexpected EOF") ∧
   no_prediction
     (@ModelEntityAspectGeneration malformed_services 1%positive sample_world).2
     2%positive ∧
   (@flow malformed_services (World ∅ [])).1
     = Raise (ParseError "unexpected EOF")) ∧
  ((@ModelEntityAspectGeneration not_mapping_services 1%positive sample_world).1
     = Raise TypeError ∧
   no_prediction
     (@ModelEntityAspectGeneration not_mapping_services 1%positive sample_world).2
     2%positive ∧
   (@flow not_mapping_services (World ∅ [])).1 = Raise TypeError) ∧
  ((@ModelEntityAspectGeneration no_key_services 1%positive sample_world).1
     = Raise KeyError ∧
   no_prediction
     (@ModelEntityAspectGeneration no_key_services 1%positive sample_world).2
     2%positive ∧
   (@flow no_key_services (World ∅ [])).1 = Raise KeyError) ∧
  ((@ModelEntityAspectGeneration empty_aspect_services 1%positive sample_world).1
     = Raise IndexError ∧
   no_prediction
     (@ModelEntityAspectGeneration empty_aspect_services 1%positive sample_world).2
     2%positive ∧
   (@flow empty_aspect_services (World ∅ [])).1 = Raise IndexError).
Proof.
  assert (∀ S : Services,
            @read_csv S = (λ _, Ok sample_table) →
            @load_data S "sample_review.csv" (World ∅ [])
            = (Ok 1%positive, sample_world)) as Hload
    by (intros S HS; unfold load_data; rewrite HS; reflexivity).
  assert ((∅ : gmap string pyval) !! "1" = None) as Hnokey by reflexivity.
  assert (({[ "1" := PDict empty_aspect_entry ]} : gmap string pyval) !! "1"
          = Some (PDict empty_aspect_entry)) as Hentry by reflexivity.
  assert (empty_aspect_entry !! "named_entity" = Some (PStr "food")) as Hne
    by reflexivity.
  assert (empty_aspect_entry !! "aspect" = Some (PList [])) as Hasp
    by reflexivity.
  split; [|split; [|split]].
  - destruct (@extraction_failure_propagates malformed_services 1%positive
                sample_table "The food is decent" "food" "decent"
                (Message "assistant" "{1: ") [] sample_world
                (ParseError "unexpected EOF")
                eq_refl eq_refl eq_refl eq_refl eq_refl (fail_parse _))
      as (Hr & Hn & Hf).
    split; [exact Hr|]. split; [exact Hn|].
    exact (Hf (World ∅ []) (Hload malformed_services eq_refl)).
  - destruct (@extraction_failure_propagates not_mapping_services 1%positive
                sample_table "The food is decent" "food" "decent"
                (Message "assistant" "[]") [] sample_world TypeError
                eq_refl eq_refl eq_refl eq_refl eq_refl
                (fail_not_mapping (PList []) I))
      as (Hr & Hn & Hf).
    split; [exact Hr|]. split; [exact Hn|].
    exact (Hf (World ∅ []) (Hload not_mapping_services eq_refl)).
  - destruct (@extraction_failure_propagates no_key_services 1%positive
                sample_table "The food is decent" "food" "decent"
                (Message "assistant" "{}") [] sample_world KeyError
                eq_refl eq_refl eq_refl eq_refl eq_refl
                (fail_missing_key ∅ Hnokey))
      as (Hr & Hn & Hf).
    split; [exact Hr|]. split; [exact Hn|].
    exact (Hf (World ∅ []) (Hload no_key_services eq_refl)).
  - destruct (@extraction_failure_propagates empty_aspect_services 1%positive
                sample_table "The food is decent" "food" "decent"
                (Message "assistant" "empty aspect") [] sample_world IndexError
                eq_refl eq_refl eq_refl eq_refl eq_refl
                (fail_empty_aspect {[ "1" := PDict empty_aspect_entry ]}
                   empty_aspect_entry (PStr "food") Hentry Hne Hasp))
      as (Hr & Hn & Hf).
    split; [exact Hr|]. split; [exact Hn|].
    exact (Hf (World ∅ []) (Hload empty_aspect_services eq_refl)).
Defined.

Lemma generation_invariant_scenario :
  let ops := [ op_extract_tuple 2%positive;
               op_ModelEvaluation 1%positive 2%positive None;
               op_order_chat_messages 2%positive;
               op_extract_true_val 2%positive;
               op_flow ] in
  (∃ g te ta pe pa,
     heap generated_world !! 2%positive = Some (OGen g) ∧
     gen_true_entity g = [te] ∧
     gen_true_aspect g = [ta] ∧
     gen_predicted_entity g = [pe] ∧
     gen_predicted_aspect g = [pa] ∧
     gen_generation g = [pe; pa]) ∧
  gen_invariant_at 2%positive (@exec_all scenario_services ops generated_world).
Proof.
  intros ops.
  assert (@ModelEntityAspectGeneration scenario_services 1%positive sample_world
          = (Ok 2%positive, generated_world)) as Hrun
    by (vm_compute; reflexivity).
  exact (@generation_invariant scenario_services 1%positive sample_world
           generated_world 2%positive ops Hrun).
Defined.

Lemma flow_reads_row_0_only_scenario :
  let w' := (@flow scenario_services (World ∅ [])).2 in
  let S2 := with_read_csv scenario_services (λ _, Ok longer_table) in
  let review := nl +:+ "        " +:+ "The food is decent" +:+ nl +:+ "        " in
  let transcript :=
    [ Message "system" system_prompt;
      Message "user" initial_user_prompt;
      Message "assistant" assistant_res_1;
      Message "user" user_clarification_prompt;
      Message "assistant" assistant_res_2;
      Message "user" review ] in
  (∃ e g,
     heap w' !! 3%positive = Some (OEval e) ∧
     heap w' !! eval_model_gen_object e = Some (OGen g) ∧
     gen_review g = review ∧
     gen_messages g = transcript ∧
     sent w' = [ Request transcript "gpt-3.5-turbo-1106" 0%float 1%Z 0%float
                   {[ "type" := "json_object" ]} ] ∧
     gen_true_entity g = [PStr "food"] ∧
     gen_true_aspect g = [PStr "decent"]) ∧
  (@flow S2 (World ∅ [])).1 = (@flow scenario_services (World ∅ [])).1 ∧
  sent (@flow S2 (World ∅ [])).2 = sent w' ∧
  ∀ l, l ≠ 1%positive → heap (@flow S2 (World ∅ [])).2 !! l = heap w' !! l.
Proof.
  intros w' S2 review transcript.
  destruct (flow_reads_row_0_only scenario_services sample_table (World ∅ [])
              eq_refl) as [Hrow Hother].
  assert (@flow scenario_services (World ∅ []) = (Ok 3%positive, w')) as Hflow
    by (vm_compute; reflexivity).
  split; [|exact (Hother longer_table eq_refl)].
  destruct (Hrow 3%positive w' Hflow)
    as (r0 & e0 & a0 & e & g & Hr & He & Ha & Hfacts).
  assert (r0 = "The food is decent") as ->
    by (vm_compute in Hr; by injection Hr).
  assert (e0 = "food") as -> by (vm_compute in He; by injection He).
  assert (a0 = "decent") as -> by (vm_compute in Ha; by injection Ha).
  exists e, g. exact Hfacts.
Defined.

(* ===================================================================== *)
(** * More on the comparison of floats *)
(* ===================================================================== *)

Module PyFloatOrder.
Import PyFloat.

Lemma key_le_trans x y z : key_le x y → key_le y z → key_le x z.
Proof.
  destruct x as [[[a b] c]|], y as [[[a' b'] c']|], z as [[[a'' b''] c'']|];
    simpl; try tauto.
  intros [Hxy|Hxy] [Hyz|Hyz]; try inversion Hxy; try inversion Hyz; subst;
    first [ left; lia | by left | by right ].
Qed.

Lemma SFleb_trans a b c :
  SFleb a b = true → SFleb b c = true → SFleb a c = true.
Proof.
  rewrite !PyFloatFacts.SFleb_key. apply key_le_trans.
Qed.

(** Two floats that compare with [<=] are numbers, not NaN. *)
Lemma SFleb_not_nan a b : SFleb a b = true → key a ≠ None ∧ key b ≠ None.
Proof.
  rewrite PyFloatFacts.SFleb_key.
  destruct (key a), (key b); simpl; try tauto. by split.
Qed.

Lemma SFeqb_key_refl a : SFeqb a a = true ↔ key a ≠ None.
Proof.
  unfold SFeqb. destruct a as [[]|[]| |[] m e]; simpl;
    rewrite ?Z.compare_refl, ?Pos.compare_cont_refl; simpl;
    split; try done.
Qed.

Lemma SFeqb_SFleb a b : SFeqb a b = true → SFleb a b = true.
Proof.
  unfold SFeqb, SFleb. by destruct (SFcompare a b) as [[]|].
Qed.

Lemma ge_trans s s' t : ge s t = true → le s s' = true → ge s' t = true.
Proof.
  unfold ge, le. rewrite !FloatAxioms.leb_spec. intros Hts Hss'.
  by apply SFleb_trans with (Prim2SF s).
Qed.

Lemma ge_nan_l s t : is_nan s = true → ge s t = false.
Proof.
  unfold is_nan, ge. rewrite FloatAxioms.eqb_spec, FloatAxioms.leb_spec. intros Hs.
  apply not_true_is_false. intros [_ Hk]%SFleb_not_nan.
  apply SFeqb_key_refl in Hk. by rewrite Hk in Hs.
Qed.

Lemma ge_nan_r s t : is_nan t = true → ge s t = false.
Proof.
  unfold is_nan, ge. rewrite FloatAxioms.eqb_spec, FloatAxioms.leb_spec. intros Ht.
  apply not_true_is_false. intros [Hk _]%SFleb_not_nan.
  apply SFeqb_key_refl in Hk. by rewrite Hk in Ht.
Qed.

Lemma eqb_ge s t : (t =? s)%float = true → ge s t = true.
Proof.
  unfold ge. rewrite FloatAxioms.eqb_spec, FloatAxioms.leb_spec. apply SFeqb_SFleb.
Qed.

End PyFloatOrder.

(* ===================================================================== *)
(** * Further properties: the acceptance rule *)
(* ===================================================================== *)

(** X1. Acceptance is monotone.  A score accepted by an evaluation object
    stays accepted when the score grows, and a score accepted under a
    threshold is accepted under every smaller threshold. *)
Theorem evaluate_monotone
    (self self' : loc) (e e' : eval_obj) (w w' : world) (s s' : float) :
  heap w !! self = Some (OEval e) →
  heap w' !! self' = Some (OEval e') →
  evaluate self s w = (Ok true, w) →
  ((s <=? s')%float = true → evaluate self s' w = (Ok true, w)) ∧
  ((eval_threshold e' <=? eval_threshold e)%float = true →
   evaluate self' s w' = (Ok true, w')).
Proof.
  intros He He'. rewrite !(evaluate_run _ _ _ _ He), (evaluate_run _ _ _ _ He').
  intros [= Hacc]. split.
  - intros Hs. by rewrite (PyFloatOrder.ge_trans s s' _ Hacc Hs).
  - intros Ht. unfold PyFloat.ge in *.
    rewrite FloatAxioms.leb_spec in *.
    by rewrite (PyFloatOrder.SFleb_trans _ _ _ Ht Hacc).
Qed.

Lemma evaluate_monotone_scenario :
  evaluate 3%positive 0.5%float (eval_world 0.5%float)
    = (Ok true, eval_world 0.5%float) ∧
  evaluate 3%positive 0.75%float (eval_world 0.5%float)
    = (Ok true, eval_world 0.5%float) ∧
  evaluate 3%positive 0.5%float (eval_world 0.25%float)
    = (Ok true, eval_world 0.25%float).
Proof.
  pose (e := EvalObj 1%positive 2%positive 0.5%float 0%float 0%float None None).
  pose (e' := EvalObj 1%positive 2%positive 0.25%float 0%float 0%float None None).
  assert (heap (eval_world 0.5%float) !! 3%positive = Some (OEval e)) as H1
    by reflexivity.
  assert (heap (eval_world 0.25%float) !! 3%positive = Some (OEval e')) as H2
    by reflexivity.
  assert (evaluate 3%positive 0.5%float (eval_world 0.5%float)
          = (Ok true, eval_world 0.5%float)) as H3 by reflexivity.
  destruct (evaluate_monotone 3%positive 3%positive e e' _ _
              0.5%float 0.75%float H1 H2 H3) as [Hs Ht].
  split; [exact H3|]. split; [apply Hs | apply Ht]; reflexivity.
Defined.

(** X2. A NaN never passes.  When the score or the threshold of the object
    is a NaN, [evaluate] returns [False]. *)
Theorem evaluate_nan_rejects
    (self : loc) (e : eval_obj) (w : world) (s : float) :
  heap w !! self = Some (OEval e) →
  is_nan s = true ∨ is_nan (eval_threshold e) = true →
  evaluate self s w = (Ok false, w).
Proof.
  intros He Hnan. rewrite (evaluate_run _ _ _ _ He).
  destruct Hnan as [Hs|Ht].
  - by rewrite PyFloatOrder.ge_nan_l.
  - by rewrite PyFloatOrder.ge_nan_r.
Qed.

Lemma evaluate_nan_rejects_scenario :
  evaluate 3%positive nan (eval_world 0%float)
    = (Ok false, eval_world 0%float) ∧
  evaluate 3%positive 1%float (eval_world nan)
    = (Ok false, eval_world nan).
Proof.
  split.
  - apply (evaluate_nan_rejects 3%positive
             (EvalObj 1%positive 2%positive 0%float 0%float 0%float None None));
      [reflexivity | left; reflexivity].
  - apply (evaluate_nan_rejects 3%positive
             (EvalObj 1%positive 2%positive nan 0%float 0%float None None));
      [reflexivity | right; reflexivity].
Defined.

(** X3. The bound is included.  A score equal to the threshold (as floats
    compare: 0.0 and -0.0 are equal, a NaN equals nothing) is accepted. *)
Theorem evaluate_accepts_threshold
    (self : loc) (e : eval_obj) (w : world) (s : float) :
  heap w !! self = Some (OEval e) →
  (eval_threshold e =? s)%float = true →
  evaluate self s w = (Ok true, w).
Proof.
  intros He Heq. rewrite (evaluate_run _ _ _ _ He).
  by rewrite PyFloatOrder.eqb_ge.
Qed.

Lemma evaluate_accepts_threshold_scenario :
  evaluate 3%positive threshold_score_default (eval_world threshold_score_default)
    = (Ok true, eval_world threshold_score_default) ∧
  evaluate 3%positive (-0)%float (eval_world 0%float)
    = (Ok true, eval_world 0%float).
Proof.
  split.
  - apply (evaluate_accepts_threshold 3%positive
             (EvalObj 1%positive 2%positive threshold_score_default
                0%float 0%float None None)); reflexivity.
  - apply (evaluate_accepts_threshold 3%positive
             (EvalObj 1%positive 2%positive 0%float 0%float 0%float None None));
      reflexivity.
Defined.

(* ===================================================================== *)
(** * Further properties: the evaluation object *)
(* ===================================================================== *)

Section EvaluationExtras.

Context `{Services}.

(** X4. The keep flags are set together or not at all.  Whatever the
    outcome of the construction, either it returns the new object and both
    flags hold the comparison of their score with the threshold, or it
    raises and both flags are still [None]. *)
Theorem ModelEvaluation_flags_all_or_nothing
    (df gen : loc) (threshold_score : option float) (w : world) :
  let out := ModelEvaluation df gen threshold_score w in
  let self := fresh (dom (heap w)) in
  ∃ e,
    heap out.2 !! self = Some (OEval e) ∧
    ((out.1 = Ok self ∧
      eval_keep_entity_prediction e =
        Some (PyFloat.ge (eval_entity_cosine_score e) (eval_threshold e)) ∧
      eval_keep_aspect_prediction e =
        Some (PyFloat.ge (eval_aspect_cosine_score e) (eval_threshold e))) ∨
     ((∃ x, out.1 = Raise x) ∧
      eval_keep_entity_prediction e = None ∧
      eval_keep_aspect_prediction e = None)).
Proof.
  intros out self. subst out.
  destruct (heap w !! gen) as [o|] eqn:Hg.
  2:{ rewrite ModelEvaluation_no_gen by (intros; congruence).
      eexists. split; [apply lookup_insert_eq|]. right. eauto. }
  destruct o as [t|g|e];
    [ rewrite ModelEvaluation_no_gen by (intros; congruence);
      eexists; (split; [apply lookup_insert_eq|]); right; eauto
    | | rewrite ModelEvaluation_no_gen by (intros; congruence);
      eexists; (split; [apply lookup_insert_eq|]); right; eauto ].
  rewrite (ModelEvaluation_run _ _ _ g) by done.
  destruct (cosine_score (gen_true_entity g) _) as [se|x].
  2:{ eexists. split; [apply lookup_insert_eq|]. right. eauto. }
  destruct (cosine_score (gen_true_aspect g) _) as [sa|x].
  2:{ eexists. split; [apply lookup_insert_eq|]. right. eauto. }
  eexists. split; [apply lookup_insert_eq|]. left. done.
Qed.

(** X5. The data frame given to [ModelEvaluation] is stored and never read.
    With another reference in its place, even one to no data frame, the
    construction returns or raises the same, and the object it leaves
    differs in the attribute [df] only. *)
Theorem ModelEvaluation_ignores_df
    (df1 df2 gen : loc) (threshold_score : option float) (w : world) :
  let out1 := ModelEvaluation df1 gen threshold_score w in
  let out2 := ModelEvaluation df2 gen threshold_score w in
  out1.1 = out2.1 ∧
  ∃ e,
    out1.2 = World (<[fresh (dom (heap w)) := OEval e]> (heap w)) (sent w) ∧
    eval_df e = df1 ∧
    out2.2 =
      World (<[fresh (dom (heap w)) :=
                 OEval (EvalObj df2 (eval_model_gen_object e) (eval_threshold e)
                          (eval_entity_cosine_score e)
                          (eval_aspect_cosine_score e)
                          (eval_keep_entity_prediction e)
                          (eval_keep_aspect_prediction e))]> (heap w)) (sent w).
Proof.
  intros out1 out2. subst out1 out2.
  destruct (heap w !! gen) as [o|] eqn:Hg.
  2:{ rewrite !ModelEvaluation_no_gen by (intros; congruence).
      split; [done|]. by eexists. }
  destruct o as [t|g|e];
    [ rewrite !ModelEvaluation_no_gen by (intros; congruence);
      split; [done|]; by eexists
    | | rewrite !ModelEvaluation_no_gen by (intros; congruence);
      split; [done|]; by eexists ].
  rewrite !(ModelEvaluation_run _ _ _ g) by done.
  destruct (cosine_score (gen_true_entity g) _) as [se|x];
    [|split; [done|]; by eexists].
  destruct (cosine_score (gen_true_aspect g) _) as [sa|x];
    split; try done; by eexists.
Qed.

End EvaluationExtras.

(* ===================================================================== *)
(** * Further properties: the completion client *)
(* ===================================================================== *)

Section ClientExtras.

Context `{Services}.

(** X6. The failures of the client.  When the endpoint raises, the client
    raises the same exception; when the answer holds no choice, it raises
    [IndexError].  In both cases the request was issued, once, and no
    object of the store has changed. *)
Theorem get_completion_failures
    (messages : list message) (model : string) (frequency_penalty : float)
    (n : Z) (temperature : float) (response_format : ResponseFormat)
    (w : world) (x : exn) :
  let req := Request messages model frequency_penalty n temperature
               (ResponseFormat_value response_format) in
  chat_completions_create (sent w) req = Raise x ∨
  (chat_completions_create (sent w) req = Ok (Completion []) ∧ x = IndexError) →
  get_completion_from_messages messages (Some model) (Some frequency_penalty)
    (Some n) (Some temperature) (Some response_format) w
  = (Raise x, World (heap w) (sent w ++ [req])).
Proof.
  intros req Hc. subst req. rewrite get_completion_from_messages_run.
  cbn [from_option id]. by destruct Hc as [->|[-> ->]].
Qed.

End ClientExtras.

Lemma get_completion_failures_scenario :
  let req := Request [Message "user" "Hello"] "gpt-4" 0.5%float 2%Z 0.75%float
               {[ "type" := "text" ]} in
  @get_completion_from_messages down_services [Message "user" "Hello"]
    (Some "gpt-4") (Some 0.5%float) (Some 2%Z) (Some 0.75%float) (Some TEXT)
    sample_world
  = (Raise (ApiError "connection error"),
     World (heap sample_world) (sent sample_world ++ [req])) ∧
  @get_completion_from_messages no_choice_services [Message "user" "Hello"]
    (Some "gpt-4") (Some 0.5%float) (Some 2%Z) (Some 0.75%float) (Some TEXT)
    sample_world
  = (Raise IndexError, World (heap sample_world) (sent sample_world ++ [req])).
Proof.
  intros req. split.
  - apply (@get_completion_failures down_services [Message "user" "Hello"]
             "gpt-4" 0.5%float 2%Z 0.75%float TEXT sample_world).
    left. reflexivity.
  - apply (@get_completion_failures no_choice_services [Message "user" "Hello"]
             "gpt-4" 0.5%float 2%Z 0.75%float TEXT sample_world).
    right. split; reflexivity.
Defined.

(* ===================================================================== *)
(** * Further properties: the methods of the generation object *)
(* ===================================================================== *)

(** X7. [extract_tuple] is all or nothing.  When it raises, whatever the
    reason, the store is exactly as before: no attribute holds half a
    prediction. *)
Theorem extract_tuple_atomic (self : loc) (w : world) (x : exn) :
  (extract_tuple self w).1 = Raise x →
  (extract_tuple self w).2 = w.
Proof.
  destruct (heap w !! self) as [o|] eqn:Hs.
  2:{ unfold extract_tuple, bind, get_gen. by rewrite Hs. }
  destruct o as [t|g|e];
    try (unfold extract_tuple, bind, get_gen; by rewrite Hs).
  rewrite (extract_tuple_outcome _ g) by done. unfold tuple_outcome.
  destruct (prediction_of _) as [[e a]|y]; [discriminate|].
  intros _. cbn [snd]. by rewrite heap_same, world_eta.
Qed.

Lemma extract_tuple_atomic_scenario :
  let w := World {[ 2%positive := OGen (GenObj 1%positive EmptyString []
                                          (PDict ∅) [] [] [] [] []) ]} [] in
  (extract_tuple 2%positive w).1 = Raise KeyError ∧
  (extract_tuple 2%positive w).2 = w.
Proof.
  intros w.
  assert ((extract_tuple 2%positive w).1 = Raise KeyError) as H1
    by reflexivity.
  split; [exact H1|].
  exact (extract_tuple_atomic 2%positive w KeyError H1).
Defined.

(** X8. [extract_tuple] is idempotent.  Once it has succeeded, running it
    again succeeds and changes nothing. *)
Theorem extract_tuple_idempotent (self : loc) (w w1 : world) :
  extract_tuple self w = (Ok tt, w1) →
  extract_tuple self w1 = (Ok tt, w1).
Proof.
  intros Hrun.
  destruct (heap w !! self) as [o|] eqn:Hs.
  2:{ unfold extract_tuple, bind, get_gen in Hrun. by rewrite Hs in Hrun. }
  destruct o as [t|g|e];
    try (unfold extract_tuple, bind, get_gen in Hrun; by rewrite Hs in Hrun).
  rewrite (extract_tuple_outcome _ g) in Hrun by done.
  unfold tuple_outcome in Hrun.
  destruct (prediction_of (gen_review_analysis g)) as [[e a]|y] eqn:Hp;
    [|discriminate].
  injection Hrun as <-.
  rewrite (extract_tuple_outcome _ (with_prediction e a g))
    by (cbn [heap]; apply lookup_insert_eq).
  unfold tuple_outcome. cbn [gen_review_analysis with_prediction]. rewrite Hp.
  cbn [heap sent]. by rewrite heap_overwrite.
Qed.

Lemma extract_tuple_idempotent_scenario :
  let w := World {[ 2%positive := OGen (GenObj 1%positive EmptyString []
                                          two_pair_response [] [] [] [] []) ]} [] in
  let w1 := (extract_tuple 2%positive w).2 in
  extract_tuple 2%positive w = (Ok tt, w1) ∧
  extract_tuple 2%positive w1 = (Ok tt, w1).
Proof.
  intros w w1.
  assert (extract_tuple 2%positive w = (Ok tt, w1)) as H1
    by (vm_compute; reflexivity).
  split; [exact H1|].
  exact (extract_tuple_idempotent 2%positive w w1 H1).
Defined.

Lemma substring_0_0 (s : string) : String.substring 0 0 s = EmptyString.
Proof. by destruct s. Qed.

Lemma first_char_cases (c : Ascii.ascii) (s : string) :
  let n := Ascii.N_of_ascii c in
  ((n < 192)%N → first_char (String c s) = String c EmptyString) ∧
  (∀ c2 s', s = String c2 s' → (192 ≤ n < 224)%N →
     first_char (String c s) = String c (String c2 EmptyString)) ∧
  (∀ c2 c3 s', s = String c2 (String c3 s') → (224 ≤ n < 240)%N →
     first_char (String c s)
     = String c (String c2 (String c3 EmptyString))) ∧
  (∀ c2 c3 c4 s', s = String c2 (String c3 (String c4 s')) → (240 ≤ n)%N →
     first_char (String c s)
     = String c (String c2 (String c3 (String c4 EmptyString)))).
Proof.
  intros n. unfold first_char, utf8_width. fold n.
  repeat split; intros; subst;
    repeat match goal with
      | |- context [(?a <? ?b)%N] => destruct (N.ltb_spec a b); try lia
      end;
    cbn [String.substring]; by rewrite substring_0_0.
Qed.

(** X9. An aspect given as a bare string.  When the entry of key ["1"]
    holds a non-empty string under ["aspect"] instead of a list, no error
    is raised: the predicted aspect is the first character of the string.
    That character is the first byte when it is below 192 (an ASCII
    character), and the first two, three or four bytes when the first byte
    is the leading byte of a longer UTF-8 sequence. *)
Theorem extract_tuple_string_aspect
    (self : loc) (g : gen_obj) (w : world)
    (d entry : gmap string pyval) (e : pyval) (c : Ascii.ascii) (s : string) :
  heap w !! self = Some (OGen g) →
  gen_review_analysis g = PDict d →
  d !! "1" = Some (PDict entry) →
  entry !! "named_entity" = Some e →
  entry !! "aspect" = Some (PStr (String c s)) →
  ∃ g' a,
    extract_tuple self w =
      (Ok tt, World (<[self := OGen g']> (heap w)) (sent w)) ∧
    gen_predicted_entity g' = [e] ∧
    gen_predicted_aspect g' = [PStr a] ∧
    gen_generation g' = [e; PStr a] ∧
    let n := Ascii.N_of_ascii c in
    ((n < 192)%N → a = String c EmptyString) ∧
    (∀ c2 s', s = String c2 s' → (192 ≤ n < 224)%N →
       a = String c (String c2 EmptyString)) ∧
    (∀ c2 c3 s', s = String c2 (String c3 s') → (224 ≤ n < 240)%N →
       a = String c (String c2 (String c3 EmptyString))) ∧
    (∀ c2 c3 c4 s', s = String c2 (String c3 (String c4 s')) → (240 ≤ n)%N →
       a = String c (String c2 (String c3 (String c4 EmptyString)))).
Proof.
  intros Hs Hd H1 He Ha.
  exists (with_prediction e (PStr (first_char (String c s))) g),
         (first_char (String c s)).
  split; [|split; [done|]; split; [done|]; split; [done|];
           apply first_char_cases].
  apply extract_tuple_run with (PDict entry) (PStr (String c s)); try done.
  - rewrite Hd. cbn [getitem_str]. by rewrite H1.
  - cbn [getitem_str]. by rewrite He.
  - cbn [getitem_str]. by rewrite Ha.
Qed.

Lemma extract_tuple_string_aspect_scenario :
  (∃ g',
     extract_tuple 2%positive string_aspect_world =
       (Ok tt, World (<[2%positive := OGen g']> (heap string_aspect_world))
                 (sent string_aspect_world)) ∧
     gen_predicted_entity g' = [PStr "food"] ∧
     gen_predicted_aspect g' = [PStr "d"] ∧
     gen_generation g' = [PStr "food"; PStr "d"]) ∧
  (∃ g',
     extract_tuple 2%positive accent_aspect_world =
       (Ok tt, World (<[2%positive := OGen g']> (heap accent_aspect_world))
                 (sent accent_aspect_world)) ∧
     gen_predicted_entity g' = [PStr "plat"] ∧
     gen_predicted_aspect g' = [PStr e_acute] ∧
     gen_generation g' = [PStr "plat"; PStr e_acute]).
Proof.
  assert (({[ "1" := PDict string_aspect_entry ]} : gmap string pyval) !! "1"
          = Some (PDict string_aspect_entry)) as H1 by reflexivity.
  assert (string_aspect_entry !! "named_entity" = Some (PStr "food")) as H2
    by reflexivity.
  assert (string_aspect_entry !! "aspect" = Some (PStr "decent")) as H3
    by reflexivity.
  assert (({[ "1" := PDict accent_aspect_entry ]} : gmap string pyval) !! "1"
          = Some (PDict accent_aspect_entry)) as H4 by reflexivity.
  assert (accent_aspect_entry !! "named_entity" = Some (PStr "plat")) as H5
    by reflexivity.
  assert (accent_aspect_entry !! "aspect" = Some (PStr (e_acute +:+ "pice")))
    as H6 by reflexivity.
  split.
  - destruct (extract_tuple_string_aspect 2%positive
                (GenObj 1%positive EmptyString [] string_aspect_response
                   [] [] [] [] [])
                string_aspect_world _ string_aspect_entry (PStr "food")
                _ _ eq_refl eq_refl H1 H2 H3)
      as (g' & a & Hrun & Hpe & Hpa & Hgen & Hascii & _).
    assert (a = "d") as -> by (apply Hascii; vm_compute; reflexivity).
    by exists g'.
  - destruct (extract_tuple_string_aspect 2%positive
                (GenObj 1%positive EmptyString [] accent_aspect_response
                   [] [] [] [] [])
                accent_aspect_world _ accent_aspect_entry (PStr "plat")
                _ _ eq_refl eq_refl H4 H5 H6)
      as (g' & a & Hrun & Hpe & Hpa & Hgen & _ & Htwo & _).
    assert (a = e_acute) as ->.
    { eapply Htwo; [reflexivity|]. split; vm_compute; congruence. }
    by exists g'.
Defined.

(** X10. [extract_true_val] is not all or nothing.  Over a table that has a
    true entity at row 0 but no true aspect, it raises [KeyError] after it
    has replaced the true entity: the true aspect is the former one. *)
Theorem extract_true_val_partial
    (self : loc) (g : gen_obj) (t : table) (e : string) (w : world) :
  heap w !! self = Some (OGen g) →
  heap w !! gen_df g = Some (ODataFrame t) →
  table_at t "true_entity" 0 = Ok e →
  table_at t "true_aspect" 0 = Raise KeyError →
  ∃ g',
    extract_true_val self w =
      (Raise KeyError, World (<[self := OGen g']> (heap w)) (sent w)) ∧
    gen_true_entity g' = [PStr e] ∧
    gen_true_aspect g' = gen_true_aspect g.
Proof.
  intros Hs Hd He Ha. rewrite (extract_true_val_run _ g t) by done.
  unfold true_val_outcome. rewrite He, Ha. by eexists.
Qed.

Lemma extract_true_val_partial_scenario :
  ∃ g',
    extract_true_val 2%positive analysed_world =
      (Raise KeyError,
       World (<[2%positive := OGen g']> (heap analysed_world))
         (sent analysed_world)) ∧
    gen_true_entity g' = [PStr "food"] ∧
    gen_true_aspect g' = [].
Proof.
  exact (extract_true_val_partial 2%positive analysed_gen no_aspect_table
           "food" analysed_world eq_refl eq_refl eq_refl eq_refl).
Defined.

Section GenerationExtras.

Context `{Services}.

(** X11. A failed analysis leaves the former one.  When
    [order_chat_messages] has read the review and then raises (the endpoint
    failed, answered without a choice, or the completion did not parse), the
    review and the messages are the new ones and one request was sent, while
    the review analysis and the prediction are those the object held
    before. *)
Theorem order_chat_messages_failure_keeps_analysis
    (self : loc) (g : gen_obj) (t : table) (cell : string) (w : world)
    (x : exn) :
  heap w !! self = Some (OGen g) →
  heap w !! gen_df g = Some (ODataFrame t) →
  table_at t "review" 0 = Ok cell →
  (order_chat_messages self w).1 = Raise x →
  let w' := (order_chat_messages self w).2 in
  ∃ g',
    heap w' !! self = Some (OGen g') ∧
    sent w' = sent w ++ [json_request (chat_messages (review_text cell))] ∧
    gen_review g' = review_text cell ∧
    gen_messages g' = chat_messages (review_text cell) ∧
    gen_review_analysis g' = gen_review_analysis g ∧
    gen_predicted_entity g' = gen_predicted_entity g ∧
    gen_predicted_aspect g' = gen_predicted_aspect g ∧
    gen_generation g' = gen_generation g.
Proof.
  intros Hs Hd Hcell. rewrite (order_chat_messages_run _ g t) by done.
  unfold order_outcome. rewrite Hcell.
  destruct (first_choice _) as [text|y];
    [destruct (literal_eval text) as [v|y]; [discriminate|]|];
    intros _; cbn [snd heap sent]; eexists;
    (split; [apply lookup_insert_eq | done]).
Qed.

(** X12. No review, no request.  Over a table without a review at row 0 the
    construction raises [KeyError] before anything is sent to the endpoint;
    the object under construction is as [__init__] first set it. *)
Theorem ModelEntityAspectGeneration_no_review
    (df : loc) (t : table) (w : world) :
  heap w !! df = Some (ODataFrame t) →
  table_at t "review" 0 = Raise KeyError →
  ModelEntityAspectGeneration df w =
  (Raise KeyError,
   World (<[fresh (dom (heap w)) :=
              OGen (GenObj df EmptyString [] (PDict ∅) [] [] [] [] [])]>
            (heap w)) (sent w)).
Proof.
  intros Hd Hcell. rewrite (ModelEntityAspectGeneration_run _ t) by done.
  unfold generation_outcome, order_outcome. rewrite Hcell.
  cbn [returning]. by rewrite app_nil_r.
Qed.

(** X13. The completion is requested before the true values are read.  Over
    a table with a review but without a true entity or a true aspect at row
    0, the construction sends the request, parses the answer, and only then
    raises [KeyError]; no prediction is extracted from the answer. *)
Theorem ModelEntityAspectGeneration_requests_before_true_values
    (df : loc) (t : table) (cell : string) (c : message) (cs : list message)
    (v : pyval) (w : world) :
  heap w !! df = Some (ODataFrame t) →
  table_at t "review" 0 = Ok cell →
  chat_completions_create (sent w)
    (json_request (chat_messages (review_text cell)))
    = Ok (Completion (c :: cs)) →
  literal_eval (content c) = Ok v →
  table_at t "true_entity" 0 = Raise KeyError ∨
  table_at t "true_aspect" 0 = Raise KeyError →
  let out := ModelEntityAspectGeneration df w in
  out.1 = Raise KeyError ∧
  sent out.2 = sent w ++ [json_request (chat_messages (review_text cell))] ∧
  ∃ g, heap out.2 !! fresh (dom (heap w)) = Some (OGen g) ∧
       gen_review_analysis g = v ∧
       gen_predicted_entity g = [] ∧
       gen_predicted_aspect g = [] ∧
       gen_generation g = [].
Proof.
  intros Hd Hcell Hc Hv Htrue out. subst out.
  rewrite (ModelEntityAspectGeneration_run _ t) by done.
  unfold generation_outcome, order_outcome. rewrite Hcell, Hc.
  cbn [first_choice]. rewrite Hv. unfold true_val_outcome.
  destruct Htrue as [He|Ha].
  - rewrite He. cbn [returning fst snd heap sent].
    split; [done|]. split; [done|]. eexists.
    split; [apply lookup_insert_eq | done].
  - destruct (table_at t "true_entity" 0) as [e|y] eqn:He.
    + rewrite Ha. cbn [returning fst snd heap sent].
      split; [done|]. split; [done|]. eexists.
      split; [apply lookup_insert_eq | done].
    + assert (y = KeyError) as ->.
      { revert He. unfold table_at. repeat case_match; congruence. }
      cbn [returning fst snd heap sent].
      split; [done|]. split; [done|]. eexists.
      split; [apply lookup_insert_eq | done].
Qed.

Lemma generation_outcome_shape df t hist :
  gen_df (generation_outcome df t hist).1.2 = df ∧
  ((generation_outcome df t hist).2 = [] ∨
   ∃ req, (generation_outcome df t hist).2 = [req]).
Proof.
  unfold generation_outcome, order_outcome, true_val_outcome, tuple_outcome.
  repeat case_match; simplify_eq; cbn; eauto.
Qed.

(** X14. The footprint of the construction of a generation object.  Whatever
    its outcome, it allocates one object, the generation object, at a
    location that was free, with [df] as its data frame; it changes no
    object that was in the store, and it sends at most one request. *)
Theorem ModelEntityAspectGeneration_frame (df : loc) (w : world) :
  let out := ModelEntityAspectGeneration df w in
  let self := fresh (dom (heap w)) in
  heap w !! self = None ∧
  (∀ l o, heap w !! l = Some o → heap out.2 !! l = Some o) ∧
  (∀ l, l ≠ self → heap out.2 !! l = heap w !! l) ∧
  (∃ g, heap out.2 !! self = Some (OGen g) ∧ gen_df g = df) ∧
  (sent out.2 = sent w ∨ ∃ req, sent out.2 = sent w ++ [req]) ∧
  (out.1 = Ok self ∨ ∃ x, out.1 = Raise x).
Proof.
  intros out self.
  assert (∃ (r : result unit) g reqs,
            out = (returning self r,
                   World (<[self := OGen g]> (heap w)) (sent w ++ reqs)) ∧
            gen_df g = df ∧ (reqs = [] ∨ ∃ req, reqs = [req]))
    as (r & g & reqs & -> & Hdf & Hreqs).
  { subst out.
    destruct (heap w !! df) as [[t|g|e]|] eqn:Hd.
    - rewrite (ModelEntityAspectGeneration_run _ t) by done.
      destruct (generation_outcome_shape df t (sent w)) as [Hdf Hreqs].
      destruct (generation_outcome df t (sent w)) as [[r g] reqs].
      by exists r, g, reqs.
    - rewrite ModelEntityAspectGeneration_no_table by (intros; congruence).
      exists (Raise AttributeError : result unit), (gen_init df), [].
      rewrite app_nil_r. eauto.
    - rewrite ModelEntityAspectGeneration_no_table by (intros; congruence).
      exists (Raise AttributeError : result unit), (gen_init df), [].
      rewrite app_nil_r. eauto.
    - rewrite ModelEntityAspectGeneration_no_table by (intros; congruence).
      exists (Raise AttributeError : result unit), (gen_init df), [].
      rewrite app_nil_r. eauto. }
  cbn [fst snd heap sent].
  split; [apply fresh_lookup|].
  split.
  { intros l o Hl. rewrite lookup_insert_ne; [done|]. by apply fresh_ne with o. }
  split; [intros l Hl; by rewrite lookup_insert_ne|].
  split; [exists g; by rewrite lookup_insert_eq|].
  split.
  - destruct Hreqs as [->|[req ->]]; [left; by rewrite app_nil_r | eauto].
  - destruct r; cbn; eauto.
Qed.

End GenerationExtras.

Lemma order_chat_messages_failure_keeps_analysis_scenario :
  let out := @order_chat_messages down_services 2%positive stale_world in
  out.1 = Raise (ApiError "connection error") ∧
  ∃ g',
    heap out.2 !! 2%positive = Some (OGen g') ∧
    sent out.2 = sent stale_world ++
                 [json_request (chat_messages (review_text "The food is decent"))] ∧
    gen_review g' = review_text "The food is decent" ∧
    gen_messages g' = chat_messages (review_text "The food is decent") ∧
    gen_review_analysis g' = one_pair_response ∧
    gen_predicted_entity g' = [PStr "food"] ∧
    gen_predicted_aspect g' = [PStr "decent"] ∧
    gen_generation g' = [PStr "food"; PStr "decent"].
Proof.
  intros out.
  assert (out.1 = Raise (ApiError "connection error")) as H1 by reflexivity.
  split; [exact H1|].
  exact (@order_chat_messages_failure_keeps_analysis down_services 2%positive
           scenario_gen sample_table "The food is decent" stale_world
           (ApiError "connection error") eq_refl eq_refl eq_refl H1).
Defined.

Lemma ModelEntityAspectGeneration_no_review_scenario :
  @ModelEntityAspectGeneration scenario_services 1%positive no_review_world =
  (Raise KeyError,
   World (<[fresh (dom (heap no_review_world)) :=
              OGen (GenObj 1%positive EmptyString [] (PDict ∅) [] [] [] [] [])]>
            (heap no_review_world)) []).
Proof.
  exact (@ModelEntityAspectGeneration_no_review scenario_services 1%positive
           no_review_table no_review_world eq_refl eq_refl).
Defined.

Lemma ModelEntityAspectGeneration_requests_before_true_values_scenario :
  let out := @ModelEntityAspectGeneration scenario_services 1%positive
               no_aspect_world in
  out.1 = Raise KeyError ∧
  sent out.2 = sent no_aspect_world ++
               [json_request (chat_messages (review_text "The food is decent"))] ∧
  ∃ g, heap out.2 !! fresh (dom (heap no_aspect_world)) = Some (OGen g) ∧
       gen_review_analysis g = one_pair_response ∧
       gen_predicted_entity g = [] ∧
       gen_predicted_aspect g = [] ∧
       gen_generation g = [].
Proof.
  exact (@ModelEntityAspectGeneration_requests_before_true_values
           scenario_services 1%positive no_aspect_table "The food is decent"
           (Message "assistant" one_pair_text) [] one_pair_response
           no_aspect_world eq_refl eq_refl eq_refl eq_refl
           (or_intror eq_refl)).
Defined.

(* ===================================================================== *)
(** * Further properties: the orchestrator *)
(* ===================================================================== *)

Lemma insert_fresh_lookup (h : gmap loc object) l o v :
  h !! l = Some o → <[fresh (dom h) := v]> h !! l = Some o.
Proof.
  intros Hl. rewrite lookup_insert_ne; [done|]. by apply fresh_ne with o.
Qed.

Section FlowExtras.

Context `{Services}.

Lemma flow_run_no_file w x :
  read_csv "sample_review.csv" = Raise x → flow w = (Raise x, w).
Proof.
  intros Hcsv. unfold flow. rewrite bind_run. unfold load_data.
  rewrite bind_run. unfold lift. by rewrite Hcsv.
Qed.

(** X15. No file, no run.  When the CSV file cannot be read, [flow] raises
    the exception of the reader and leaves the store as it was: no object
    is created and nothing is sent. *)
Theorem flow_read_failure (w : world) (x : exn) :
  read_csv "sample_review.csv" = Raise x →
  flow w = (Raise x, w) ∧
  heap (flow w).2 = heap w ∧
  sent (flow w).2 = sent w.
Proof.
  intros Hcsv. by rewrite (flow_run_no_file w x).
Qed.

(** X16. What a successful run builds.  When [flow] returns, the store has
    exactly three objects more, at three distinct locations that were free:
    the table read from the CSV file, a generation object and the
    evaluation object returned.  Both objects refer to that table, the
    evaluation object refers to that generation object and has the default
    threshold 0.85, and exactly one request was sent. *)
#[warnings="-inexact-float"]
Theorem flow_success_shape (w w' : world) (ev : loc) :
  flow w = (Ok ev, w') →
  ∃ t df gen g e req,
    read_csv "sample_review.csv" = Ok t ∧
    heap w' = <[ev := OEval e]> (<[gen := OGen g]>
                (<[df := ODataFrame t]> (heap w))) ∧
    heap w !! df = None ∧ heap w !! gen = None ∧ heap w !! ev = None ∧
    df ≠ gen ∧ df ≠ ev ∧ gen ≠ ev ∧
    gen_df g = df ∧
    eval_df e = df ∧
    eval_model_gen_object e = gen ∧
    eval_threshold e = 0.85%float ∧
    sent w' = sent w ++ [req].
Proof.
  intros Hflow.
  destruct (read_csv "sample_review.csv") as [t|x] eqn:Hcsv.
  2:{ rewrite (flow_run_no_file _ x) in Hflow by done. discriminate. }
  rewrite (flow_run t) in Hflow by done.
  destruct (generation_outcome _ t (sent w)) as [[r g] reqs] eqn:Hout.
  destruct r as [[]|]; [|discriminate].
  apply generation_outcome_ok_inv in Hout
    as (r0 & text & v & e0 & a0 & pe & pa & _ & _ & _ & _ & _ & _ & -> & ->).
  apply ModelEvaluation_ok_inv in Hflow
    as (g' & se & sa & _ & _ & _ & -> & ->).
  cbn [heap sent].
  set (df := fresh (dom (heap w))).
  set (h1 := <[df := ODataFrame t]> (heap w)).
  set (gen := fresh (dom h1)).
  set (gobj := GenObj df _ _ _ _ _ _ _ _).
  set (h2 := <[gen := OGen gobj]> h1).
  set (ev := fresh (dom h2)).
  assert (heap w !! df = None) as Hdf by apply fresh_lookup.
  assert (h1 !! gen = None) as Hgen by apply fresh_lookup.
  assert (h2 !! ev = None) as Hev by apply fresh_lookup.
  assert (df ≠ gen) as Hne1.
  { intros Heq. subst h1. rewrite <- Heq, lookup_insert_eq in Hgen. done. }
  assert (gen ≠ ev) as Hne2.
  { intros Heq. subst h2. rewrite <- Heq, lookup_insert_eq in Hev. done. }
  assert (df ≠ ev) as Hne3.
  { intros Heq. subst h2 h1.
    rewrite <- Heq, lookup_insert_ne, lookup_insert_eq in Hev by done. done. }
  eexists t, df, gen, gobj, _, _.
  split; [done|]. split; [reflexivity|].
  split; [done|].
  split. { subst h1. by rewrite lookup_insert_ne in Hgen. }
  split. { subst h2 h1. by rewrite !lookup_insert_ne in Hev. }
  done.
Qed.

(** X17. The footprint of [flow].  Whatever its outcome, [flow] changes no
    object that was in the store and sends at most one request. *)
Theorem flow_frame (w : world) :
  (∀ l o, heap w !! l = Some o → heap (flow w).2 !! l = Some o) ∧
  (sent (flow w).2 = sent w ∨ ∃ req, sent (flow w).2 = sent w ++ [req]).
Proof.
  destruct (read_csv "sample_review.csv") as [t|x] eqn:Hcsv.
  2:{ rewrite (flow_run_no_file _ x) by done. split; [done | by left]. }
  rewrite (flow_run t) by done.
  destruct (generation_outcome_shape (fresh (dom (heap w))) t (sent w))
    as [_ Hreqs].
  destruct (generation_outcome _ t (sent w)) as [[r g] reqs].
  cbn [fst snd] in Hreqs.
  assert (sent w ++ reqs = sent w ∨ ∃ req, sent w ++ reqs = sent w ++ [req])
    as Hsent.
  { destruct Hreqs as [->|[req ->]]; [left; by rewrite app_nil_r | eauto]. }
  destruct r as [[]|x].
  - cbv zeta.
    match goal with
    | |- context [ModelEvaluation ?a ?b ?c ?d] =>
        destruct (ModelEvaluation_store a b c d) as (e & Hw & _); rewrite Hw
    end.
    cbn [snd heap sent]. split; [|done].
    intros l o Hl. by do 3 apply insert_fresh_lookup.
  - cbn [snd heap sent]. split; [|done].
    intros l o Hl. by do 2 apply insert_fresh_lookup.
Qed.

(** X18. When [flow] succeeds.  It returns an evaluation object exactly when
    every step has its input: the file is read, row 0 has a review, a true
    entity and a true aspect, the endpoint answers with a choice, its
    content parses, the entry of key ["1"] gives a prediction, and both
    scores can be computed.  There is no other way to fail. *)
Theorem flow_succeeds_iff (w : world) :
  (∃ ev w', flow w = (Ok ev, w')) ↔
  ∃ t cell c cs v e a pe pa se sa,
    read_csv "sample_review.csv" = Ok t ∧
    table_at t "review" 0 = Ok cell ∧
    chat_completions_create (sent w)
      (json_request (chat_messages (review_text cell)))
      = Ok (Completion (c :: cs)) ∧
    literal_eval (content c) = Ok v ∧
    table_at t "true_entity" 0 = Ok e ∧
    table_at t "true_aspect" 0 = Ok a ∧
    prediction_of v = Ok (pe, pa) ∧
    field_score [PStr e] [pe] se ∧
    field_score [PStr a] [pa] sa.
Proof.
  split.
  - intros (ev & w' & Hflow).
    destruct (read_csv "sample_review.csv") as [t|x] eqn:Hcsv.
    2:{ rewrite (flow_run_no_file _ x) in Hflow by done. discriminate. }
    rewrite (flow_run t) in Hflow by done.
    destruct (generation_outcome _ t (sent w)) as [[r g] reqs] eqn:Hout.
    destruct r as [[]|]; [|discriminate].
    apply generation_outcome_ok_inv in Hout
      as (cell & text & v & e & a & pe & pa
          & Hcell & Htext & Hv & He & Ha & Hp & -> & ->).
    apply ModelEvaluation_ok_inv in Hflow
      as (g' & se & sa & Hg & Hse & Hsa & _ & _).
    cbn [heap] in Hg. rewrite lookup_insert_eq in Hg. injection Hg as <-.
    cbn in Hse, Hsa.
    destruct (chat_completions_create _ _) as [[[|c cs]]|] eqn:Hc;
      try discriminate.
    injection Htext as <-.
    exists t, cell, c, cs, v, e, a, pe, pa, se, sa.
    repeat (split; [done|]).
    split; by apply cosine_score_field_score.
  - intros (t & cell & c & cs & v & e & a & pe & pa & se & sa
            & Hcsv & Hcell & Hc & Hv & He & Ha & Hp & Hse & Hsa).
    apply cosine_score_field_score in Hse, Hsa.
    rewrite (flow_run t) by done.
    unfold generation_outcome, order_outcome, true_val_outcome, tuple_outcome.
    rewrite Hcell, Hc. cbn [first_choice]. rewrite Hv, He, Ha.
    cbn [gen_review_analysis set_gen_true_aspect set_gen_true_entity
           set_gen_review_analysis].
    rewrite Hp.
    erewrite ModelEvaluation_run by (cbn [heap]; apply lookup_insert_eq).
    cbn [gen_true_entity gen_predicted_entity gen_true_aspect
           gen_predicted_aspect with_prediction set_gen_true_aspect
           set_gen_true_entity].
    rewrite Hse, Hsa. eauto.
Qed.

End FlowExtras.

Lemma flow_read_failure_scenario :
  @flow no_file_services sample_world
    = (Raise (ApiError "file not found"), sample_world) ∧
  heap (@flow no_file_services sample_world).2 = heap sample_world ∧
  sent (@flow no_file_services sample_world).2 = sent sample_world.
Proof.
  exact (@flow_read_failure no_file_services sample_world
           (ApiError "file not found") eq_refl).
Defined.

#[warnings="-inexact-float"]
Lemma flow_success_shape_scenario :
  let w' := (@flow scenario_services (World ∅ [])).2 in
  ∃ t df gen g e req,
    @read_csv scenario_services "sample_review.csv" = Ok t ∧
    heap w' = <[3%positive := OEval e]> (<[gen := OGen g]>
                (<[df := ODataFrame t]> ∅)) ∧
    (∅ : gmap loc object) !! df = None ∧
    (∅ : gmap loc object) !! gen = None ∧
    (∅ : gmap loc object) !! 3%positive = None ∧
    df ≠ gen ∧ df ≠ 3%positive ∧ gen ≠ 3%positive ∧
    gen_df g = df ∧
    eval_df e = df ∧
    eval_model_gen_object e = gen ∧
    eval_threshold e = 0.85%float ∧
    sent w' = [] ++ [req].
Proof.
  intros w'.
  assert (@flow scenario_services (World ∅ []) = (Ok 3%positive, w')) as Hflow
    by (vm_compute; reflexivity).
  exact (@flow_success_shape scenario_services (World ∅ []) w' 3%positive Hflow).
Defined.

(* ===================================================================== *)
(** * Further properties: the transcript and the review *)
(* ===================================================================== *)

Lemma list_ascii_of_string_app s1 s2 :
  String.list_ascii_of_string (s1 +:+ s2)
  = String.list_ascii_of_string s1 ++ String.list_ascii_of_string s2.
Proof. induction s1 as [|a s1 IH]; simpl; [done | by rewrite IH]. Qed.

Lemma string_app_inv_tail s1 s2 t : s1 +:+ t = s2 +:+ t → s1 = s2.
Proof.
  intros Heq. apply (f_equal String.list_ascii_of_string) in Heq.
  rewrite !list_ascii_of_string_app in Heq. apply app_inv_tail in Heq.
  rewrite <- (String.string_of_list_ascii_of_string s1),
          <- (String.string_of_list_ascii_of_string s2).
  by rewrite Heq.
Qed.

(** X19. The request identifies the review.  The review is placed in the
    last message as it is, so two reviews whose extraction requests are the
    same are the same review. *)
Theorem json_request_review_inj (cell1 cell2 : string) :
  json_request (chat_messages (review_text cell1))
  = json_request (chat_messages (review_text cell2)) →
  cell1 = cell2.
Proof.
  intros Heq. apply (f_equal req_messages) in Heq.
  cbn [json_request req_messages chat_messages] in Heq.
  injection Heq as Heq. revert Heq.
  unfold review_text, unlines. cbn [String.concat].
  change (EmptyString +:+ ?s) with s.
  intros Heq. by apply string_app_inv_tail in Heq.
Qed.

Lemma json_request_review_inj_scenario :
  json_request (chat_messages (review_text "The food is decent"))
    = json_request (chat_messages (review_text "The food is decent")) ∧
  "The food is decent" = "The food is decent".
Proof.
  split; [reflexivity|].
  exact (json_request_review_inj "The food is decent" "The food is decent"
           eq_refl).
Defined.
